(** * The Gemini gateway and its HTTP dispatcher

    A shallow embedding of [lib/gemini.js] (the [GeminiAI] class) and of the
    two Next.js API routes [pages/api/gemini/chat.js] and
    [pages/api/gemini/project-builder.js].

    JavaScript values that reach the handlers come out of a JSON body, so a
    value is a JSON value or [undefined].  A string is the UTF-8 of its code
    points; a surrogate that stands alone is written like any other code
    point, with three bytes.  The effects of a request (calls of the model
    provider, [console.error]) are kept in a trace next to the result. *)

From Stdlib Require Import String Ascii List Bool Arith NArith Lia.
Import ListNotations.
Open Scope string_scope.
Set Warnings "-register-all".

(** ** Characters and strings *)

Definition nl : string := String (ascii_of_nat 10) EmptyString.
Definition dq : string := String (ascii_of_nat 34) EmptyString.

(** The three bytes [c1 c2 c3] are those of a surrogate, which is then the
    code unit [53248 + 64 * (c2 - 128) + (c3 - 128)]. *)
Definition surrogate_bytes (c1 c2 c3 : ascii) : bool :=
  let n2 := N_of_ascii c2 in
  let n3 := N_of_ascii c3 in
  ((N_of_ascii c1 =? 237) && (160 <=? n2) && (n2 <=? 191)
   && (128 <=? n3) && (n3 <=? 191))%N.

Definition surrogate_unit (c2 c3 : ascii) : N :=
  (53248 + 64 * (N_of_ascii c2 - 128) + (N_of_ascii c3 - 128))%N.

(** [Array.prototype.join] on an array of strings. *)
Definition join (sep : string) (xs : list string) : string := String.concat sep xs.

(** ** Values *)

(** A JSON value.  A number is kept as the literal it was written with; an
    object as the list of its members in source order, duplicates included
    ([JSON.parse] lets a later member overwrite an earlier one). *)
Inductive json : Type :=
| JNull
| JBool (b : bool)
| JNumber (lit : string)
| JString (s : string)
| JArray (xs : list json)
| JObject (ps : list (string * json)).

(** A JavaScript value of a request: [None] is [undefined]. *)
Definition jsval : Type := option json.

(** A parameter with a default value, [x = d]: the default replaces
    [undefined] only. *)
Definition default (v : jsval) (d : json) : json :=
  match v with Some x => x | None => d end.

(** ** Exceptions *)

Inductive exn : Type :=
| Error (message : string)          (* new Error(message) *)
| TypeError (message : string)      (* raised by the engine; V8's wording *)
| SyntaxError                       (* raised by JSON.parse *)
| ProviderError (message : string). (* whatever the provider's SDK threw *)

(** [error.message].  The text of a [SyntaxError] depends on the engine and
    on the position of the fault; every handler that could see it replaces
    the error by one of its own. *)
Definition error_message (e : exn) : string :=
  match e with
  | Error m => m
  | TypeError m => m
  | SyntaxError => "Unexpected token in JSON"
  | ProviderError m => m
  end.

Inductive outcome (A : Type) : Type :=
| Returns (a : A)
| Throws (e : exn).
Arguments Returns {A} a.
Arguments Throws {A} e.

Definition and_then {A B} (o : outcome A) (k : A -> outcome B) : outcome B :=
  match o with
  | Returns a => k a
  | Throws e => Throws e
  end.

(** The conversions of a list, left to right, stopping at the first throw. *)
Fixpoint all_of {A B} (f : A -> outcome B) (xs : list A) : outcome (list B) :=
  match xs with
  | [] => Returns []
  | x :: xs' =>
      and_then (f x) (fun y => and_then (all_of f xs') (fun ys => Returns (y :: ys)))
  end.

(** ** The effects of a request *)

Inductive event : Type :=
| ProviderCall (prompt : string)            (* this.model.generateContent(prompt) *)
| ConsoleError (label : string) (e : exn).  (* console.error(label, e) *)

(** A computation: the events it caused, and how it ended. *)
Definition M (A : Type) : Type := (list event * outcome A)%type.

Definition ret {A} (a : A) : M A := ([], Returns a).
Definition throw {A} (e : exn) : M A := ([], Throws e).
Definition lift {A} (o : outcome A) : M A := ([], o).
Definition emit (ev : event) : M unit := ([ev], Returns tt).

Definition bind {A B} (m : M A) (k : A -> M B) : M B :=
  match m with
  | (t, Returns a) => let (t', r) := k a in ((t ++ t')%list, r)
  | (t, Throws e) => (t, Throws e)
  end.

(** [try { body } catch (error) { handler }] *)
Definition try_catch {A} (body : M A) (handler : exn -> M A) : M A :=
  match body with
  | (t, Returns a) => (t, Returns a)
  | (t, Throws e) => let (t', r) := handler e in ((t ++ t')%list, r)
  end.

Declare Scope js_scope.
Delimit Scope js_scope with js.
Notation "x <- m ;; k" := (bind m (fun x => k))
  (at level 61, m at next level, right associativity) : js_scope.
Notation "m ;; k" := (bind m (fun _ => k))
  (at level 61, right associativity) : js_scope.
Open Scope js_scope.

Definition trace {A} (m : M A) : list event := fst m.
Definition result {A} (m : M A) : outcome A := snd m.

(** The prompts sent to the provider, in order. *)
Fixpoint provider_calls (t : list event) : list string :=
  match t with
  | [] => []
  | ProviderCall p :: t' => p :: provider_calls t'
  | ConsoleError _ _ :: t' => provider_calls t'
  end.

Notation "'let!' x ':=' o 'in' k" := (and_then o (fun x => k))
  (at level 10, x name, o at level 100, k at level 200) : js_scope.

(** ** Own properties of an object *)

Section Properties.
Context {V : Type}.

(** The last binding of [key]. *)
Fixpoint lookup (ps : list (string * V)) (key : string) : option V :=
  match ps with
  | [] => None
  | (k, v) :: ps' =>
      match lookup ps' key with
      | Some w => Some w
      | None => if k =? key then Some v else None
      end
  end.

Definition digit_of (c : ascii) : option N :=
  let n := N_of_ascii c in
  if ((48 <=? n) && (n <=? 57))%N then Some (n - 48)%N else None.

Fixpoint digits_value (acc : N) (s : string) : option N :=
  match s with
  | EmptyString => Some acc
  | String c s' =>
      match digit_of c with
      | Some d => digits_value (10 * acc + d)%N s'
      | None => None
      end
  end.

(** An array index: a canonical numeric string of value at most 2^32 - 2. *)
Definition array_index (k : string) : option N :=
  match k with
  | EmptyString => None
  | String c rest =>
      if ((c =? "0")%char && negb (rest =? ""))%bool then None
      else match digits_value 0 k with
           | Some n => if (n <? 4294967295)%N then Some n else None
           | None => None
           end
  end.

Fixpoint insert_index (n : N) (k : string) (ks : list (N * string)) : list (N * string) :=
  match ks with
  | [] => [(n, k)]
  | (m, k') :: ks' =>
      if (n <=? m)%N then (n, k) :: ks else (m, k') :: insert_index n k ks'
  end.

Fixpoint index_keys (ks : list string) : list (N * string) :=
  match ks with
  | [] => []
  | k :: ks' =>
      match array_index k with
      | Some n => insert_index n k (index_keys ks')
      | None => index_keys ks'
      end
  end.

(** The keys in the order of their first appearance. *)
Definition first_keys (ps : list (string * V)) : list string :=
  rev (nodup string_dec (rev (map fst ps))).

(** [OrdinaryOwnPropertyKeys]: array indices in ascending order, then the
    other keys in the order they were created. *)
Definition own_keys (ps : list (string * V)) : list string :=
  let ks := first_keys ps in
  (map snd (index_keys ks)
     ++ filter (fun k => match array_index k with Some _ => false | None => true end) ks)%list.

Definition own_properties (ps : list (string * V)) : list (string * V) :=
  flat_map (fun k => match lookup ps k with Some v => [(k, v)] | None => [] end)
           (own_keys ps).

Definition has_own (ps : list (string * V)) (key : string) : bool :=
  match lookup ps key with Some _ => true | None => false end.
End Properties.

(** [o[key]] on the members of an object made by [JSON.parse], for a key
    that [Object.prototype] does not define. *)
Definition get (ps : list (string * json)) (key : string) : jsval := lookup ps key.

(** ** The engine's conversions

    What a number literal denotes is an IEEE-754 double; the two operations
    of the engine that depend on it are parameters:
    [Number_toString lit] is [Number::toString] of the double that [lit]
    denotes, and [StringToNumber_sign s] the sign of [StringToNumber(s)]
    ([None] for NaN, [Eq] for either zero). *)

Section Engine.
Variable Number_toString : string -> string.
Variable StringToNumber_sign : string -> option comparison.

Definition cannot_convert : exn :=
  TypeError "Cannot convert object to primitive value".

(** [ToString(ToPrimitive(v))].  An object made by [JSON.parse] inherits
    [Object.prototype.toString] unless it has an own member [toString],
    which is then no function; an array inherits [join(',')], in which
    [null] gives the empty string. *)
Fixpoint ToString (v : json) : outcome string :=
  match v with
  | JNull => Returns "null"
  | JBool b => Returns (if b then "true" else "false")
  | JNumber lit => Returns (Number_toString lit)
  | JString s => Returns s
  | JArray xs =>
      let! ss := all_of (fun x => match x with
                                  | JNull => Returns ""
                                  | _ => ToString x
                                  end) xs in
      Returns (join "," ss)
  | JObject ps =>
      if has_own ps "toString" then Throws cannot_convert
      else Returns "[object Object]"
  end.

(** A template literal's [${v}], and an operand of [+] next to a string. *)
Definition to_string (v : jsval) : outcome string :=
  match v with
  | None => Returns "undefined"
  | Some j => ToString j
  end.

(** [Array.prototype.join(sep)]: [null] and [undefined] give the empty
    string. *)
Definition array_join (sep : string) (xs : list json) : outcome string :=
  let! ss := all_of (fun x => match x with
                              | JNull => Returns ""
                              | _ => ToString x
                              end) xs in
  Returns (join sep ss).

(** [!v] is [negb (truthy v)]. *)
Definition truthy (v : jsval) : bool :=
  match v with
  | None => false
  | Some JNull => false
  | Some (JBool b) => b
  | Some (JNumber lit) =>
      match StringToNumber_sign lit with
      | Some Lt | Some Gt => true
      | Some Eq | None => false
      end
  | Some (JString s) => negb (s =? "")
  | Some (JArray _) | Some (JObject _) => true
  end.

Definition is_positive (s : string) : bool :=
  match StringToNumber_sign s with Some Gt => true | _ => false end.

(** [v > 0] *)
Definition greater_than_zero (v : jsval) : outcome bool :=
  match v with
  | None => Returns false
  | Some JNull => Returns false
  | Some (JBool b) => Returns b
  | Some (JNumber lit) => Returns (is_positive lit)
  | Some (JString s) => Returns (is_positive s)
  | Some (JArray xs) => let! s := ToString (JArray xs) in Returns (is_positive s)
  | Some (JObject ps) => let! s := ToString (JObject ps) in Returns (is_positive s)
  end.
End Engine.

(** ** [JSON.stringify(value, null, 2)] *)

Section Stringify.
Variable Number_toString : string -> string.

Definition hex_digit (n : N) : ascii :=
  if (n <? 10)%N then ascii_of_N (48 + n) else ascii_of_N (87 + n).

Definition backslash : string := String (ascii_of_nat 92) EmptyString.

(** One character of [QuoteJSONString]. *)
Definition quote_char (c : ascii) : string :=
  let n := N_of_ascii c in
  if (n =? 34)%N then backslash ++ dq
  else if (n =? 92)%N then backslash ++ backslash
  else if (n =? 8)%N then backslash ++ "b"
  else if (n =? 9)%N then backslash ++ "t"
  else if (n =? 10)%N then backslash ++ "n"
  else if (n =? 12)%N then backslash ++ "f"
  else if (n =? 13)%N then backslash ++ "r"
  else if (n <? 32)%N then
    backslash ++ "u00" ++ String (hex_digit (n / 16)) (String (hex_digit (n mod 16)) "")
  else String c "".

Definition hex4 (n : N) : string :=
  String (hex_digit (n / 4096))
    (String (hex_digit ((n / 256) mod 16))
       (String (hex_digit ((n / 16) mod 16))
          (String (hex_digit (n mod 16)) ""))).

(** [QuoteJSONString]: a surrogate that stands alone is written as an
    escape. *)
Fixpoint quote_chars (s : string) : string :=
  match s with
  | EmptyString => ""
  | String c1 s' =>
      match s' with
      | String c2 (String c3 rest) =>
          if surrogate_bytes c1 c2 c3
          then backslash ++ "u" ++ hex4 (surrogate_unit c2 c3) ++ quote_chars rest
          else quote_char c1 ++ quote_chars s'
      | _ => quote_char c1 ++ quote_chars s'
      end
  end.

Definition quote (s : string) : string := dq ++ quote_chars s ++ dq.

(** A number that is not finite is written [null]. *)
Definition stringify_number (lit : string) : string :=
  let s := Number_toString lit in
  if ((s =? "Infinity") || (s =? "-Infinity"))%bool then "null" else s.

(** [SerializeJSONProperty] with the gap [gap], at indentation [indent]. *)
Fixpoint stringify (gap indent : string) (v : json) : string :=
  match v with
  | JNull => "null"
  | JBool b => if b then "true" else "false"
  | JNumber lit => stringify_number lit
  | JString s => quote s
  | JArray xs =>
      let inner := indent ++ gap in
      match map (stringify gap inner) xs with
      | [] => "[]"
      | items =>
          "[" ++ nl ++ inner ++ join ("," ++ nl ++ inner) items ++ nl ++ indent ++ "]"
      end
  | JObject ps =>
      let inner := indent ++ gap in
      match own_properties (map (fun p => (fst p, stringify gap inner (snd p))) ps) with
      | [] => "{}"
      | members =>
          "{" ++ nl ++ inner
              ++ join ("," ++ nl ++ inner)
                      (map (fun m => quote (fst m) ++ ": " ++ snd m) members)
              ++ nl ++ indent ++ "}"
      end
  end.

Definition JSON_stringify_2 (v : json) : string := stringify "  " "" v.
End Stringify.

(** ** [text.match(/\{[\s\S]*\}/)] *)

Definition open_brace : ascii := ascii_of_nat 123.
Definition close_brace : ascii := ascii_of_nat 125.

(** What follows the first opening brace. *)
Fixpoint after_first_open (s : string) : option string :=
  match s with
  | EmptyString => None
  | String c s' => if (c =? open_brace)%char then Some s' else after_first_open s'
  end.

(** The longest prefix that ends with a closing brace. *)
Fixpoint through_last_close (s : string) : option string :=
  match s with
  | EmptyString => None
  | String c s' =>
      match through_last_close s' with
      | Some p => Some (String c p)
      | None => if (c =? close_brace)%char then Some (String c "") else None
      end
  end.

(** The matched text, [jsonMatch[0]], or [None] for [null]: the regular
    expression is greedy, so the match runs from the first opening brace to
    the last closing brace after it. *)
Definition match_braces (text : string) : option string :=
  match after_first_open text with
  | None => None
  | Some rest =>
      match through_last_close rest with
      | None => None
      | Some p => Some (String open_brace p)
      end
  end.

(** ** [JSON.parse]

    A lexer that reads the text one character at a time, and a pushdown
    automaton over its tokens; both are total.  [None] stands for the
    [SyntaxError] that [JSON.parse] throws. *)

Module Json.

Inductive token : Type :=
| TLBrace | TRBrace | TLBracket | TRBracket | TColon | TComma
| TString (s : string)
| TNumber (lit : string)
| TTrue | TFalse | TNull.

(** Where the lexer stands inside a number. *)
Inductive numstate : Type :=
| NMinus | NZero | NInt | NDot | NFrac | NExp | NExpSign | NExpDigits.

Inductive lexer : Type :=
| LStart
| LString (acc : string)
| LEscape (acc : string)
| LUnicode (acc : string) (seen : nat) (value : N)
| LNumber (acc : string) (st : numstate)
| LWord (rest : string) (tok : token).

Definition snoc (s : string) (c : ascii) : string := s ++ String c "".

Definition is_digit (c : ascii) : bool :=
  let n := N_of_ascii c in ((48 <=? n) && (n <=? 57))%N.

Definition is_whitespace (c : ascii) : bool :=
  let n := N_of_ascii c in ((n =? 32) || (n =? 9) || (n =? 10) || (n =? 13))%N.

Definition hex_value (c : ascii) : option N :=
  let n := N_of_ascii c in
  if ((48 <=? n) && (n <=? 57))%N then Some (n - 48)%N
  else if ((65 <=? n) && (n <=? 70))%N then Some (n - 55)%N
  else if ((97 <=? n) && (n <=? 102))%N then Some (n - 87)%N
  else None.

(** The bytes of the code point [n]. *)
Definition code_point (n : N) : string :=
  if (n <? 128)%N then String (ascii_of_N n) ""
  else if (n <? 2048)%N then
    String (ascii_of_N (192 + n / 64)) (String (ascii_of_N (128 + n mod 64)) "")
  else if (n <? 65536)%N then
    String (ascii_of_N (224 + n / 4096))
      (String (ascii_of_N (128 + (n / 64) mod 64))
         (String (ascii_of_N (128 + n mod 64)) ""))
  else
    String (ascii_of_N (240 + n / 262144))
      (String (ascii_of_N (128 + (n / 4096) mod 64))
         (String (ascii_of_N (128 + (n / 64) mod 64))
            (String (ascii_of_N (128 + n mod 64)) ""))).

Definition is_high_surrogate (n : N) : bool := ((55296 <=? n) && (n <=? 56319))%N.
Definition is_low_surrogate (n : N) : bool := ((56320 <=? n) && (n <=? 57343))%N.

(** The high surrogate that the text ends with, and the text before it. *)
Fixpoint ends_with_high_surrogate (s : string) : option (string * N) :=
  match s with
  | EmptyString => None
  | String c1 rest =>
      match rest with
      | String c2 (String c3 EmptyString) =>
          let n := surrogate_unit c2 c3 in
          if (surrogate_bytes c1 c2 c3 && is_high_surrogate n)%bool
          then Some ("", n) else None
      | _ =>
          match ends_with_high_surrogate rest with
          | Some (front, n) => Some (String c1 front, n)
          | None => None
          end
      end
  end.

(** The text [acc] followed by the code unit [n] of a [\uXXXX] escape: a low
    surrogate that comes right after a high one makes one character with
    it. *)
Definition code_unit (acc : string) (n : N) : string :=
  if is_low_surrogate n then
    match ends_with_high_surrogate acc with
    | Some (front, high) =>
        front ++ code_point (65536 + 1024 * (high - 55296) + (n - 56320))
    | None => acc ++ code_point n
    end
  else acc ++ code_point n.

Definition accepting (st : numstate) : bool :=
  match st with
  | NZero | NInt | NFrac | NExpDigits => true
  | NMinus | NDot | NExp | NExpSign => false
  end.

Definition is_e (c : ascii) : bool := ((c =? "e") || (c =? "E"))%char.

(** The next state of a number, or [None] when [c] does not continue it. *)
Definition num_step (st : numstate) (c : ascii) : option numstate :=
  match st with
  | NMinus => if (c =? "0")%char then Some NZero
              else if is_digit c then Some NInt else None
  | NZero => if (c =? ".")%char then Some NDot
             else if is_e c then Some NExp else None
  | NInt => if is_digit c then Some NInt
            else if (c =? ".")%char then Some NDot
            else if is_e c then Some NExp else None
  | NDot => if is_digit c then Some NFrac else None
  | NFrac => if is_digit c then Some NFrac
             else if is_e c then Some NExp else None
  | NExp => if ((c =? "+") || (c =? "-"))%char then Some NExpSign
            else if is_digit c then Some NExpDigits else None
  | NExpSign | NExpDigits => if is_digit c then Some NExpDigits else None
  end.

(** A character between two tokens. *)
Definition lex_start (c : ascii) : option (lexer * list token) :=
  if is_whitespace c then Some (LStart, [])
  else if (c =? open_brace)%char then Some (LStart, [TLBrace])
  else if (c =? close_brace)%char then Some (LStart, [TRBrace])
  else if (c =? "[")%char then Some (LStart, [TLBracket])
  else if (c =? "]")%char then Some (LStart, [TRBracket])
  else if (c =? ":")%char then Some (LStart, [TColon])
  else if (c =? ",")%char then Some (LStart, [TComma])
  else if (N_of_ascii c =? 34)%N then Some (LString "", [])
  else if (c =? "-")%char then Some (LNumber (String c "") NMinus, [])
  else if (c =? "0")%char then Some (LNumber (String c "") NZero, [])
  else if is_digit c then Some (LNumber (String c "") NInt, [])
  else if (c =? "t")%char then Some (LWord "rue" TTrue, [])
  else if (c =? "f")%char then Some (LWord "alse" TFalse, [])
  else if (c =? "n")%char then Some (LWord "ull" TNull, [])
  else None.

Definition escape (acc : string) (c : ascii) : option lexer :=
  let n := N_of_ascii c in
  if ((n =? 34) || (n =? 92) || (n =? 47))%N then Some (LString (snoc acc c))
  else if (c =? "b")%char then Some (LString (snoc acc (ascii_of_nat 8)))
  else if (c =? "f")%char then Some (LString (snoc acc (ascii_of_nat 12)))
  else if (c =? "n")%char then Some (LString (snoc acc (ascii_of_nat 10)))
  else if (c =? "r")%char then Some (LString (snoc acc (ascii_of_nat 13)))
  else if (c =? "t")%char then Some (LString (snoc acc (ascii_of_nat 9)))
  else if (c =? "u")%char then Some (LUnicode acc 0 0)
  else None.

Definition lex_step (st : lexer) (c : ascii) : option (lexer * list token) :=
  match st with
  | LStart => lex_start c
  | LString acc =>
      let n := N_of_ascii c in
      if (n =? 34)%N then Some (LStart, [TString acc])
      else if (n =? 92)%N then Some (LEscape acc, [])
      else if (n <? 32)%N then None
      else Some (LString (snoc acc c), [])
  | LEscape acc =>
      match escape acc c with
      | Some st' => Some (st', [])
      | None => None
      end
  | LUnicode acc seen value =>
      match hex_value c with
      | Some h =>
          let value' := (16 * value + h)%N in
          if (seen =? 3)%nat then Some (LString (code_unit acc value'), [])
          else Some (LUnicode acc (S seen) value', [])
      | None => None
      end
  | LNumber acc ns =>
      match num_step ns c with
      | Some ns' => Some (LNumber (snoc acc c) ns', [])
      | None =>
          if accepting ns then
            match lex_start c with
            | Some (st', toks) => Some (st', TNumber acc :: toks)
            | None => None
            end
          else None
      end
  | LWord rest tok =>
      match rest with
      | String c' rest' =>
          if (c =? c')%char
          then Some (if rest' =? "" then (LStart, [tok]) else (LWord rest' tok, []))
          else None
      | EmptyString => None
      end
  end.

Definition lex_end (st : lexer) : option (list token) :=
  match st with
  | LStart => Some []
  | LNumber acc ns => if accepting ns then Some [TNumber acc] else None
  | LString _ | LEscape _ | LUnicode _ _ _ | LWord _ _ => None
  end.

Fixpoint lex (st : lexer) (s : string) : option (list token) :=
  match s with
  | EmptyString => lex_end st
  | String c s' =>
      match lex_step st c with
      | Some (st', toks) =>
          match lex st' s' with
          | Some more => Some (toks ++ more)%list
          | None => None
          end
      | None => None
      end
  end.

(** A container that is still open. *)
Inductive frame : Type :=
| InArray (items : list json)
| InObject (members : list (string * json)) (key : option string).

Inductive pstate : Type :=
| ExpectValue
| ArrayStart
| ObjectStart
| ExpectKey
| ExpectColon
| AfterValue
| Done (v : json).

(** A finished value goes to the container that is open, or is the result. *)
Definition deliver (v : json) (stack : list frame) : option (pstate * list frame) :=
  match stack with
  | [] => Some (Done v, [])
  | InArray items :: st => Some (AfterValue, InArray (v :: items) :: st)
  | InObject ms (Some k) :: st => Some (AfterValue, InObject ((k, v) :: ms) None :: st)
  | InObject _ None :: _ => None
  end.

Definition value_token (t : token) (stack : list frame) : option (pstate * list frame) :=
  match t with
  | TLBrace => Some (ObjectStart, InObject [] None :: stack)
  | TLBracket => Some (ArrayStart, InArray [] :: stack)
  | TString s => deliver (JString s) stack
  | TNumber lit => deliver (JNumber lit) stack
  | TTrue => deliver (JBool true) stack
  | TFalse => deliver (JBool false) stack
  | TNull => deliver JNull stack
  | TRBrace | TRBracket | TColon | TComma => None
  end.

Definition key_token (t : token) (stack : list frame) : option (pstate * list frame) :=
  match t, stack with
  | TString k, InObject ms None :: st => Some (ExpectColon, InObject ms (Some k) :: st)
  | _, _ => None
  end.

Definition close_array (stack : list frame) : option (pstate * list frame) :=
  match stack with
  | InArray items :: st => deliver (JArray (rev items)) st
  | _ => None
  end.

Definition close_object (stack : list frame) : option (pstate * list frame) :=
  match stack with
  | InObject ms None :: st => deliver (JObject (rev ms)) st
  | _ => None
  end.

Definition parse_step (st : pstate) (stack : list frame) (t : token)
  : option (pstate * list frame) :=
  match st with
  | ExpectValue => value_token t stack
  | ArrayStart =>
      match t with
      | TRBracket => close_array stack
      | _ => value_token t stack
      end
  | ObjectStart =>
      match t with
      | TRBrace => close_object stack
      | _ => key_token t stack
      end
  | ExpectKey => key_token t stack
  | ExpectColon =>
      match t with
      | TColon => Some (ExpectValue, stack)
      | _ => None
      end
  | AfterValue =>
      match t, stack with
      | TComma, InArray _ :: _ => Some (ExpectValue, stack)
      | TComma, InObject _ None :: _ => Some (ExpectKey, stack)
      | TRBracket, _ => close_array stack
      | TRBrace, _ => close_object stack
      | _, _ => None
      end
  | Done _ => None
  end.

Fixpoint parse_tokens (st : pstate) (stack : list frame) (ts : list token)
  : option json :=
  match ts with
  | [] => match st with Done v => Some v | _ => None end
  | t :: ts' =>
      match parse_step st stack t with
      | Some (st', stack') => parse_tokens st' stack' ts'
      | None => None
      end
  end.

Definition parse (text : string) : option json :=
  match lex LStart text with
  | Some ts => parse_tokens ExpectValue [] ts
  | None => None
  end.

End Json.

Definition JSON_parse : string -> option json := Json.parse.

(** ** The model provider *)

(** What one call of the provider gives when it settles: the text of the
    response, or a throw with message [m] (from [generateContent], from
    awaiting [result.response] or from [response.text()]).  The call is
    awaited without a timeout; one that never settles is not part of this
    model, and everything below is about calls that settle. *)
Inductive reply : Type :=
| Text (text : string)
| Fails (m : string).

Definition provider : Type := string -> reply.

(** [const result = await this.model.generateContent(prompt);
     const response = await result.response; response.text()] *)
Definition generateContent (model : provider) (prompt : string) : M string :=
  emit (ProviderCall prompt) ;;
  match model prompt with
  | Text text => ret text
  | Fails m => throw (ProviderError m)
  end.

(** ** [lib/gemini.js]: the class [GeminiAI] *)

Section Gateway.
Variable Number_toString : string -> string.
Variable StringToNumber_sign : string -> option comparison.
Variable model : provider.

Let to_string := to_string Number_toString.
Let ToString := ToString Number_toString.

Definition generateCode_prompt (language description : string) (requirements : list string) : string :=
  join nl
    [ ""
    ; "Generate " ++ language ++ " code for the following requirements:"
    ; ""
    ; "Description: " ++ description
    ; ""
    ; "Requirements:"
    ; join nl (map (fun req => "- " ++ req) requirements)
    ; ""
    ; "Please provide clean, well-commented code with proper error handling."
    ; "Include any necessary imports or dependencies."
    ; ""
    ; "Code:"
    ; ""
    ].

Definition analyzeCode_prompt (code language : string) : string :=
  join nl
    [ ""
    ; "Analyze the following " ++ language ++ " code and provide:"
    ; "1. Code quality assessment"
    ; "2. Potential improvements"
    ; "3. Security considerations"
    ; "4. Performance optimizations"
    ; "5. Best practices recommendations"
    ; ""
    ; "Code to analyze:"
    ; "```" ++ language
    ; code
    ; "```"
    ; ""
    ; "Analysis:"
    ; ""
    ].

Definition generateFirebaseFunction_prompt (functionName description : string) : string :=
  join nl
    [ ""
    ; "Create a Firebase Cloud Function with the following specifications:"
    ; ""
    ; "Function Name: " ++ functionName
    ; "Description: " ++ description
    ; ""
    ; "Requirements:"
    ; "- Use Firebase Functions v2 syntax"
    ; "- Include proper error handling"
    ; "- Add appropriate logging"
    ; "- Include input validation"
    ; "- Follow Firebase best practices"
    ; "- Return appropriate HTTP responses"
    ; ""
    ; "Generate the complete function code:"
    ; ""
    ].

Definition generateJavaCode_prompt (className description : string) (features : list string) : string :=
  join nl
    [ ""
    ; "Generate Advanced Java code for a class named " ++ dq ++ className ++ dq ++ ":"
    ; ""
    ; "Description: " ++ description
    ; ""
    ; "Features to implement:"
    ; join nl (map (fun feature => "- " ++ feature) features)
    ; ""
    ; "Requirements:"
    ; "- Use Java 21 features where appropriate"
    ; "- Include proper JavaDoc comments"
    ; "- Implement appropriate design patterns"
    ; "- Add error handling and validation"
    ; "- Include unit test examples"
    ; "- Follow clean code principles"
    ; ""
    ; "Generate the complete Java class:"
    ; ""
    ].

Definition generateProjectPlan_prompt (projectType buildContext requirements prompt : string) : string :=
  join nl
    [ ""
    ; "You are an expert software architect and project builder. Based on the user's prompt, generate a comprehensive project plan including:"
    ; ""
    ; "1. PROJECT ANALYSIS"
    ; "   - Understanding of requirements"
    ; "   - Technology recommendations"
    ; "   - Architecture decisions"
    ; ""
    ; "2. FILE STRUCTURE"
    ; "   - Complete directory structure"
    ; "   - File organization"
    ; "   - Naming conventions"
    ; ""
    ; "3. CODE GENERATION"
    ; "   - Component files with complete code"
    ; "   - Configuration files"
    ; "   - Package dependencies"
    ; ""
    ; "4. IMPLEMENTATION STEPS"
    ; "   - Step-by-step build process"
    ; "   - Command sequences"
    ; "   - Deployment instructions"
    ; ""
    ; "5. FIREBASE INTEGRATION"
    ; "   - Database schema"
    ; "   - Cloud functions"
    ; "   - Security rules"
    ; "   - Authentication setup"
    ; ""
    ; "6. JAVA INTEGRATION (if applicable)"
    ; "   - Java class structure"
    ; "   - Maven/Gradle configuration"
    ; "   - Spring Boot setup (if needed)"
    ; "   - Integration patterns"
    ; ""
    ; "Project Type: " ++ projectType
    ; "Build Context: " ++ buildContext
    ; "Additional Requirements: " ++ requirements
    ; ""
    ; "User Prompt: " ++ prompt
    ; ""
    ; "Generate a detailed project plan in JSON format with the following structure:"
    ; "{"
    ; "  " ++ dq ++ "analysis" ++ dq ++ ": " ++ dq ++ "Project understanding and recommendations" ++ dq ++ ","
    ; "  " ++ dq ++ "architecture" ++ dq ++ ": " ++ dq ++ "System architecture overview" ++ dq ++ ","
    ; "  " ++ dq ++ "fileStructure" ++ dq ++ ": {"
    ; "    " ++ dq ++ "directories" ++ dq ++ ": [" ++ dq ++ "list of directories to create" ++ dq ++ "],"
    ; "    " ++ dq ++ "files" ++ dq ++ ": ["
    ; "      {"
    ; "        " ++ dq ++ "path" ++ dq ++ ": " ++ dq ++ "relative/path/to/file" ++ dq ++ ","
    ; "        " ++ dq ++ "type" ++ dq ++ ": " ++ dq ++ "javascript|java|json|markdown|css|html" ++ dq ++ ","
    ; "        " ++ dq ++ "content" ++ dq ++ ": " ++ dq ++ "complete file content" ++ dq ++ ","
    ; "        " ++ dq ++ "description" ++ dq ++ ": " ++ dq ++ "purpose of this file" ++ dq
    ; "      }"
    ; "    ]"
    ; "  },"
    ; "  " ++ dq ++ "dependencies" ++ dq ++ ": {"
    ; "    " ++ dq ++ "npm" ++ dq ++ ": [" ++ dq ++ "list of npm packages" ++ dq ++ "],"
    ; "    " ++ dq ++ "maven" ++ dq ++ ": [" ++ dq ++ "list of maven dependencies" ++ dq ++ "],"
    ; "    " ++ dq ++ "firebase" ++ dq ++ ": [" ++ dq ++ "list of firebase services needed" ++ dq ++ "]"
    ; "  },"
    ; "  " ++ dq ++ "commands" ++ dq ++ ": {"
    ; "    " ++ dq ++ "setup" ++ dq ++ ": [" ++ dq ++ "initialization commands" ++ dq ++ "],"
    ; "    " ++ dq ++ "development" ++ dq ++ ": [" ++ dq ++ "development commands" ++ dq ++ "],"
    ; "    " ++ dq ++ "deployment" ++ dq ++ ": [" ++ dq ++ "deployment commands" ++ dq ++ "]"
    ; "  },"
    ; "  " ++ dq ++ "features" ++ dq ++ ": [" ++ dq ++ "list of implemented features" ++ dq ++ "],"
    ; "  " ++ dq ++ "nextSteps" ++ dq ++ ": [" ++ dq ++ "suggested next development steps" ++ dq ++ "]"
    ; "}"
    ; ""
    ; "Ensure all code is production-ready, follows best practices, and includes proper error handling."
    ; ""
    ].

(** [generateCode(language, description, requirements = [])], with a
    language and requirements that are strings, as the dispatcher passes
    them. *)
Definition generateCode (language : string) (description : jsval)
    (requirements : list string) : M string :=
  d <- lift (to_string description) ;;
  let prompt := generateCode_prompt language d requirements in
  try_catch (generateContent model prompt)
    (fun error =>
       emit (ConsoleError "Code generation error:" error) ;;
       throw (Error "Failed to generate code")).

(** [analyzeCode(code, language)] *)
Definition analyzeCode (code : jsval) (language : string) : M string :=
  c <- lift (to_string code) ;;
  let prompt := analyzeCode_prompt c language in
  try_catch (generateContent model prompt)
    (fun error =>
       emit (ConsoleError "Code analysis error:" error) ;;
       throw (Error "Failed to analyze code")).

(** [generateFirebaseFunction(functionName, description)] *)
Definition generateFirebaseFunction (functionName : string) (description : jsval)
  : M string :=
  d <- lift (to_string description) ;;
  let prompt := generateFirebaseFunction_prompt functionName d in
  try_catch (generateContent model prompt)
    (fun error =>
       emit (ConsoleError "Firebase function generation error:" error) ;;
       throw (Error "Failed to generate Firebase function")).

(** [generateJavaCode(className, description, features = [])] *)
Definition generateJavaCode (className : string) (description : jsval)
    (features : list string) : M string :=
  d <- lift (to_string description) ;;
  let prompt := generateJavaCode_prompt className d features in
  try_catch (generateContent model prompt)
    (fun error =>
       emit (ConsoleError "Java code generation error:" error) ;;
       throw (Error "Failed to generate Java code")).

(** [msg.role] and [msg.content]: reading a member of [null] throws; a
    boolean, a number, a string and an array have no such member. *)
Definition member (msg : json) (key : string) : outcome jsval :=
  match msg with
  | JNull =>
      Throws (TypeError ("Cannot read properties of null (reading '" ++ key ++ "')"))
  | JObject ps => Returns (get ps key)
  | JBool _ | JNumber _ | JString _ | JArray _ => Returns None
  end.

(** [msg => msg.role + ': ' + msg.content] *)
Definition render_turn (msg : json) : outcome string :=
  let! role := member msg "role" in
  let! r := to_string role in
  let! content := member msg "content" in
  let! c := to_string content in
  Returns (r ++ ": " ++ c).

(** [conversationHistory.length > 0] *)
Definition length_positive (conversationHistory : json) : outcome bool :=
  match conversationHistory with
  | JNull => Throws (TypeError "Cannot read properties of null (reading 'length')")
  | JArray msgs => Returns (negb (Nat.eqb (List.length msgs) 0))
  | JString s => Returns (negb (s =? ""))
  | JBool _ | JNumber _ => Returns false
  | JObject ps => greater_than_zero Number_toString StringToNumber_sign (get ps "length")
  end.

(** [conversationHistory.map(msg => msg.role + ': ' + msg.content)]: only
    an array has a [map] that is a function. *)
Definition map_turns (conversationHistory : json) : outcome (list string) :=
  match conversationHistory with
  | JArray msgs => all_of render_turn msgs
  | JNull => Throws (TypeError "Cannot read properties of null (reading 'map')")
  | _ => Throws (TypeError "conversationHistory.map is not a function")
  end.

(** The prompt of [chat]: [context + 'User: ' + message]. *)
Definition chat_prompt (message : jsval) (conversationHistory : json) : outcome string :=
  let! nonempty := length_positive conversationHistory in
  let! context :=
    (if nonempty
     then let! turns := map_turns conversationHistory in
          Returns ("Previous conversation:" ++ nl ++ join nl turns ++ nl ++ nl)
     else Returns "") in
  let! m := to_string message in
  Returns (context ++ "User: " ++ m).

(** [chat(message, conversationHistory = [])] *)
Definition chat (message : jsval) (conversationHistory : jsval) : M string :=
  prompt <- lift (chat_prompt message (default conversationHistory (JArray []))) ;;
  try_catch (generateContent model prompt)
    (fun error =>
       emit (ConsoleError "Chat error:" error) ;;
       throw (Error "Failed to process chat message")).

(** [requirements.join(', ')]: only an array has a [join] that is a
    function. *)
Definition requirements_join (requirements : json) : outcome string :=
  match requirements with
  | JArray xs => array_join Number_toString ", " xs
  | JNull => Throws (TypeError "Cannot read properties of null (reading 'join')")
  | _ => Throws (TypeError "requirements.join is not a function")
  end.

(** The object returned when the response holds no braces. *)
Definition unparsed_plan (text : string) : json :=
  JObject [ ("analysis", JString text)
          ; ("error", JString "Could not parse structured project plan") ].

(** What [generateProjectPlan] does with the text of the response. *)
Definition extract_plan (text : string) : M json :=
  match match_braces text with
  | Some jsonMatch =>
      match JSON_parse jsonMatch with
      | Some plan => ret plan
      | None => throw SyntaxError
      end
  | None => ret (unparsed_plan text)
  end.

(** The [systemPrompt] of [generateProjectPlan]; the parameters
    [projectType = 'web'], [requirements = []] and [buildContext = {}] take
    their defaults here. *)
Definition plan_prompt (prompt projectType requirements buildContext : jsval)
  : outcome string :=
  let! pt := ToString (default projectType (JString "web")) in
  let bc := JSON_stringify_2 Number_toString (default buildContext (JObject [])) in
  let! rs := requirements_join (default requirements (JArray [])) in
  let! p := to_string prompt in
  Returns (generateProjectPlan_prompt pt bc rs p).

(** [generateProjectPlan(prompt, projectType = 'web', requirements = [],
    buildContext = {})] *)
Definition generateProjectPlan (prompt projectType requirements buildContext : jsval)
  : M json :=
  systemPrompt <- lift (plan_prompt prompt projectType requirements buildContext) ;;
  try_catch (text <- generateContent model systemPrompt ;; extract_plan text)
    (fun error =>
       emit (ConsoleError "Project plan generation error:" error) ;;
       throw (Error "Failed to generate project plan")).

(** ** [pages/api/gemini/chat.js] and [pages/api/gemini/project-builder.js] *)

(** A request: [req.method] and [req.body], which is whatever the framework
    parsed from the request: any JSON value, or [undefined]. *)
Record request : Type := { method : string; body : jsval }.

(** [const { first, ... } = source], for a pattern of the handlers: the
    members that the pattern can read.  Destructuring [null] or [undefined]
    throws, naming the first property of the pattern (V8's wording); a
    boolean, a number, a string and an array have none of the members that
    the handlers name, which then read as [undefined], as does a member that
    an object does not have. *)
Definition cannot_destructure (first source what : string) : exn :=
  TypeError ("Cannot destructure property '" ++ first ++ "' of '" ++ source
               ++ "' as it is " ++ what ++ ".").

Definition destructure (first source : string) (value : jsval)
  : outcome (list (string * json)) :=
  match value with
  | None => Throws (cannot_destructure first source "undefined")
  | Some JNull => Throws (cannot_destructure first source "null")
  | Some (JObject ps) => Returns ps
  | Some (JBool _) | Some (JNumber _) | Some (JString _) | Some (JArray _) => Returns []
  end.

(** [res.status(status).json(payload)] *)
Record response : Type := { status : nat; payload : list (string * json) }.

Definition is_mode (mode : json) (name : string) : bool :=
  match mode with
  | JString s => s =? name
  | _ => false
  end.

(** The [switch (mode)] of the chat handler. *)
Definition dispatch (mode : json) (message conversationHistory : jsval) : M string :=
  if is_mode mode "code" then
    generateCode "javascript" message
      ["Clean, readable code"; "Error handling"; "Best practices"]
  else if is_mode mode "java" then
    generateJavaCode "GeneratedClass" message
      ["Modern Java patterns"; "Documentation"; "Unit tests"]
  else if is_mode mode "firebase" then
    generateFirebaseFunction "generatedFunction" message
  else if is_mode mode "analyze" then
    analyzeCode message "javascript"
  else
    chat message conversationHistory.

(** The handler of [/api/gemini/chat]; [now] is what
    [new Date().toISOString()] gives when the response is written. *)
Definition chat_handler (now : string) (req : request) : M response :=
  if negb (method req =? "POST") then
    ret {| status := 405; payload := [("error", JString "Method not allowed")] |}
  else
    try_catch
      (members <- lift (destructure "message" "req.body" (body req)) ;;
       let message := get members "message" in
       let mode := default (get members "mode") (JString "chat") in
       let conversationHistory :=
         Some (default (get members "conversationHistory") (JArray [])) in
       if negb (truthy StringToNumber_sign message) then
         ret {| status := 400; payload := [("error", JString "Message is required")] |}
       else
         response <- dispatch mode message conversationHistory ;;
         ret {| status := 200;
                payload := [ ("success", JBool true)
                           ; ("response", JString response)
                           ; ("mode", mode)
                           ; ("timestamp", JString now) ] |})
      (fun error =>
         emit (ConsoleError "Chat API Error:" error) ;;
         ret {| status := 500;
                payload := [ ("error", JString "Failed to process chat message")
                           ; ("details", JString (error_message error)) ] |}).

(** The handler of [/api/gemini/project-builder]. *)
Definition project_builder_handler (now : string) (req : request) : M response :=
  if negb (method req =? "POST") then
    ret {| status := 405; payload := [("error", JString "Method not allowed")] |}
  else
    try_catch
      (members <- lift (destructure "prompt" "req.body" (body req)) ;;
       let prompt := get members "prompt" in
       let projectType := get members "projectType" in
       let requirements := get members "requirements" in
       let buildContext := get members "buildContext" in
       projectPlan <- generateProjectPlan prompt projectType requirements buildContext ;;
       ret {| status := 200;
              payload := [ ("success", JBool true)
                         ; ("projectPlan", projectPlan)
                         ; ("timestamp", JString now) ] |})
      (fun error =>
         emit (ConsoleError "Project Builder Error:" error) ;;
         ret {| status := 500;
                payload := [ ("error", JString "Failed to generate project plan")
                           ; ("details", JString (error_message error)) ] |}).
End Gateway.


(** * Properties of the dispatcher and of the gateway *)

(** What a run of a handler wrote with [res.status(..).json(..)]. *)
Definition sent (r : M response) : option response :=
  match result r with
  | Returns resp => Some resp
  | Throws _ => None
  end.

Definition status_of (r : M response) : option nat := option_map status (sent r).

(** A member of the body that was sent. *)
Definition field (r : M response) (key : string) : jsval :=
  match sent r with
  | Some resp => get (payload resp) key
  | None => None
  end.

(** The body is [null] or [undefined]: it cannot be destructured. *)
Definition nullish (v : jsval) : bool :=
  match v with
  | None | Some JNull => true
  | Some _ => false
  end.

(** What destructuring such a body throws. *)
Definition refusal (first : string) (v : jsval) : exn :=
  cannot_destructure first "req.body"
    (match v with None => "undefined" | Some _ => "null" end).

(** The members of the body: those of an object, none for another value. *)
Definition members (req : request) : list (string * json) :=
  match body req with
  | Some (JObject ps) => ps
  | _ => []
  end.

(** The request [req] with the member [key] of its body set to [v]; a body
    that is no object is left as it is. *)
Definition with_member (req : request) (key : string) (v : json) : request :=
  {| method := method req;
     body := match body req with
             | Some (JObject ps) => Some (JObject (ps ++ [(key, v)]))
             | other => other
             end |}.

(** [needle] is a prefix of [s]. *)
Fixpoint starts_with (needle s : string) : bool :=
  match needle, s with
  | EmptyString, _ => true
  | String a n', String b s' => ((a =? b)%char && starts_with n' s')%bool
  | String _ _, EmptyString => false
  end.

(** [s.includes(needle)] *)
Fixpoint includes (needle s : string) : bool :=
  (starts_with needle s
   || match s with
      | EmptyString => false
      | String _ s' => includes needle s'
      end)%bool.

(** The values used to run examples: their bodies hold no number, so the
    two operations on numbers are never consulted. *)
Definition literal_text (lit : string) : string := lit.
Definition no_sign (s : string) : option comparison := None.

(** A POST whose body is the object with the members [ps]. *)
Definition post (ps : list (string * json)) : request :=
  {| method := "POST"; body := Some (JObject ps) |}.


(** The message of the error that the operation selected by [mode] throws
    when its call of the provider fails. *)
Definition failure_of (mode : json) : string :=
  if is_mode mode "code" then "Failed to generate code"
  else if is_mode mode "java" then "Failed to generate Java code"
  else if is_mode mode "firebase" then "Failed to generate Firebase function"
  else if is_mode mode "analyze" then "Failed to analyze code"
  else "Failed to process chat message".

(** What that operation logs with [console.error] first. *)
Definition label_of (mode : json) : string :=
  if is_mode mode "code" then "Code generation error:"
  else if is_mode mode "java" then "Java code generation error:"
  else if is_mode mode "firebase" then "Firebase function generation error:"
  else if is_mode mode "analyze" then "Code analysis error:"
  else "Chat error:".

(** The prompt that the operation selected by [mode] assembles. *)
Definition prompt_of (Number_toString : string -> string)
    (StringToNumber_sign : string -> option comparison)
    (mode : json) (message conversationHistory : jsval) : outcome string :=
  if is_mode mode "code" then
    let! d := to_string Number_toString message in
    Returns (generateCode_prompt "javascript" d
               ["Clean, readable code"; "Error handling"; "Best practices"])
  else if is_mode mode "java" then
    let! d := to_string Number_toString message in
    Returns (generateJavaCode_prompt "GeneratedClass" d
               ["Modern Java patterns"; "Documentation"; "Unit tests"])
  else if is_mode mode "firebase" then
    let! d := to_string Number_toString message in
    Returns (generateFirebaseFunction_prompt "generatedFunction" d)
  else if is_mode mode "analyze" then
    let! c := to_string Number_toString message in
    Returns (analyzeCode_prompt c "javascript")
  else
    chat_prompt Number_toString StringToNumber_sign message
      (default conversationHistory (JArray [])).

(** One call of the provider, guarded as every operation of the gateway
    guards it. *)
Definition guarded (model : provider) (label failure : string) (prompt : outcome string)
  : M string :=
  match prompt with
  | Throws e => ([], Throws e)
  | Returns p =>
      match model p with
      | Text text => ([ProviderCall p], Returns text)
      | Fails m =>
          ([ProviderCall p; ConsoleError label (ProviderError m)], Throws (Error failure))
      end
  end.

(** A turn of a conversation, [{ role, content }]. *)
Definition turn (t : string * string) : json :=
  JObject [("role", JString (fst t)); ("content", JString (snd t))].

(** A turn as the prompt shows it, [<role>: <content>]. *)
Definition rendered (t : string * string) : string := fst t ++ ": " ++ snd t.

(** The keys that the project plan is asked to have. *)
Definition plan_keys : list string :=
  ["analysis"; "architecture"; "fileStructure"; "dependencies"; "commands";
   "features"; "nextSteps"].

Definition is_object (v : json) : bool :=
  match v with
  | JObject _ => true
  | _ => false
  end.

(** The keys of an object in enumeration order; none for another value. *)
Definition keys_of (v : json) : list string :=
  match v with
  | JObject ps => own_keys ps
  | _ => []
  end.

(** A member that is missing or a string, and one that is missing or an
    array of strings: what the interface of the endpoints declares. *)
Definition optional_string (v : jsval) : Prop :=
  v = None \/ exists s, v = Some (JString s).

Definition optional_strings (v : jsval) : Prop :=
  v = None \/ exists ss, v = Some (JArray (map JString ss)).

(** The outermost container that is still open is an object. *)
Fixpoint rooted_in_object (stack : list Json.frame) : bool :=
  match stack with
  | [] => false
  | [Json.InObject _ _] => true
  | [Json.InArray _] => false
  | _ :: below => rooted_in_object below
  end.

(** The parser is inside an object that holds everything read so far, or
    has finished with an object. *)
Definition inside_object (st : Json.pstate) (stack : list Json.frame) : Prop :=
  match st with
  | Json.Done v => stack = [] /\ is_object v = true
  | _ => rooted_in_object stack = true
  end.

Definition generateComponent_prompt (framework componentName description props : string) : string :=
  join nl
    [ ""
    ; "Create a " ++ framework ++ " component named " ++ dq ++ componentName ++ dq ++ ":"
    ; ""
    ; "Description: " ++ description
    ; "Props: " ++ props
    ; ""
    ; "Requirements:"
    ; "- Use modern " ++ framework ++ " patterns"
    ; "- Include TypeScript if applicable"
    ; "- Add proper prop validation"
    ; "- Include responsive design with Tailwind CSS"
    ; "- Add error boundaries and loading states"
    ; "- Follow accessibility best practices"
    ; "- Include comprehensive JSDoc comments"
    ; ""
    ; "Generate the complete component code:"
    ; ""
    ].

Definition generateDatabaseSchema_prompt (description collections : string) : string :=
  join nl
    [ ""
    ; "Design a Firebase Firestore database schema for:"
    ; ""
    ; "Description: " ++ description
    ; "Collections: " ++ collections
    ; ""
    ; "Generate:"
    ; "1. Complete Firestore data structure"
    ; "2. Security rules"
    ; "3. Indexes configuration"
    ; "4. Data validation rules"
    ; "5. Example queries"
    ; "6. CRUD operations"
    ; ""
    ; "Provide a comprehensive database design with proper relationships and security."
    ; ""
    ].

Definition generateAPI_prompt (endpoints authentication : string) : string :=
  join nl
    [ ""
    ; "Generate complete API endpoints for:"
    ; ""
    ; "Endpoints: " ++ endpoints
    ; ""
    ; "Requirements:"
    ; "- Use Next.js API routes"
    ; "- Include authentication: " ++ authentication
    ; "- Add input validation with Zod"
    ; "- Implement proper error handling"
    ; "- Add rate limiting"
    ; "- Include CORS configuration"
    ; "- Add comprehensive logging"
    ; "- Follow REST best practices"
    ; "- Include OpenAPI documentation"
    ; ""
    ; "Generate complete API implementation:"
    ; ""
    ].

Definition generateJavaApp_prompt (appName description features springBoot : string) : string :=
  join nl
    [ ""
    ; "Generate a complete Java application:"
    ; ""
    ; "Application: " ++ appName
    ; "Description: " ++ description
    ; "Features: " ++ features
    ; "Use Spring Boot: " ++ springBoot
    ; ""
    ; "Generate:"
    ; "1. Project structure (Maven/Gradle)"
    ; "2. Main application class"
    ; "3. Configuration files"
    ; "4. Entity classes"
    ; "5. Repository interfaces"
    ; "6. Service classes"
    ; "7. Controller classes (if web app)"
    ; "8. Test classes"
    ; "9. Docker configuration"
    ; "10. README with setup instructions"
    ; ""
    ; "Include modern Java patterns, dependency injection, and best practices."
    ; ""
    ].

Section Generators.
Variable Number_toString : string -> string.
Variable StringToNumber_sign : string -> option comparison.
Variable model : provider.

(** [generateText(prompt, context = '')], for a prompt that is a string.
    The prompt is assembled inside the [try]. *)
Definition generateText (prompt : string) (context : jsval) : M string :=
  try_catch
    (fullPrompt <-
       lift (let context := default context (JString "") in
             if truthy StringToNumber_sign (Some context)
             then let! c := ToString Number_toString context in
                  Returns (c ++ nl ++ nl ++ "User: " ++ prompt)
             else Returns prompt) ;;
     generateContent model fullPrompt)
    (fun error =>
       emit (ConsoleError "Gemini AI Error:" error) ;;
       throw (Error "Failed to generate AI response")).

(** [xs.join(sep)] for a parameter named [name]: only an array has a [join]
    that is a function. *)
Definition join_of (name sep : string) (xs : json) : outcome string :=
  match xs with
  | JArray items => array_join Number_toString sep items
  | JNull => Throws (TypeError "Cannot read properties of null (reading 'join')")
  | _ => Throws (TypeError (name ++ ".join is not a function"))
  end.

(** The prompt of [generateComponent]; [framework = 'react'] and
    [props = []] take their defaults here. *)
Definition component_prompt (componentName description framework props : jsval)
  : outcome string :=
  let! f := ToString Number_toString (default framework (JString "react")) in
  let! n := to_string Number_toString componentName in
  let! d := to_string Number_toString description in
  let! ps := join_of "props" ", " (default props (JArray [])) in
  Returns (generateComponent_prompt f n d ps).

(** [generateComponent(componentName, description, framework = 'react',
    props = [])] *)
Definition generateComponent (componentName description framework props : jsval)
  : M string :=
  prompt <- lift (component_prompt componentName description framework props) ;;
  try_catch (generateContent model prompt)
    (fun error =>
       emit (ConsoleError "Component generation error:" error) ;;
       throw (Error "Failed to generate component")).

(** The prompt of [generateDatabaseSchema]. *)
Definition schema_prompt (description collections : jsval) : outcome string :=
  let! d := to_string Number_toString description in
  let! cs := join_of "collections" ", " (default collections (JArray [])) in
  Returns (generateDatabaseSchema_prompt d cs).

(** [generateDatabaseSchema(description, collections = [])] *)
Definition generateDatabaseSchema (description collections : jsval) : M string :=
  prompt <- lift (schema_prompt description collections) ;;
  try_catch (generateContent model prompt)
    (fun error =>
       emit (ConsoleError "Database schema generation error:" error) ;;
       throw (Error "Failed to generate database schema")).

(** [ep => `${ep.method} ${ep.path} - ${ep.description}`] *)
Definition render_endpoint (ep : json) : outcome string :=
  let! method := member ep "method" in
  let! m := to_string Number_toString method in
  let! path := member ep "path" in
  let! p := to_string Number_toString path in
  let! description := member ep "description" in
  let! d := to_string Number_toString description in
  Returns (m ++ " " ++ p ++ " - " ++ d).

(** [endpoints.map(ep => ...).join('\n')]: [endpoints] has no default. *)
Definition endpoint_lines (endpoints : jsval) : outcome string :=
  match endpoints with
  | None => Throws (TypeError "Cannot read properties of undefined (reading 'map')")
  | Some JNull => Throws (TypeError "Cannot read properties of null (reading 'map')")
  | Some (JArray eps) =>
      let! lines := all_of render_endpoint eps in
      Returns (join nl lines)
  | Some _ => Throws (TypeError "endpoints.map is not a function")
  end.

(** The prompt of [generateAPI]. *)
Definition api_prompt (endpoints authentication : jsval) : outcome string :=
  let! eps := endpoint_lines endpoints in
  let! a := ToString Number_toString (default authentication (JBool true)) in
  Returns (generateAPI_prompt eps a).

(** [generateAPI(endpoints, authentication = true)] *)
Definition generateAPI (endpoints authentication : jsval) : M string :=
  prompt <- lift (api_prompt endpoints authentication) ;;
  try_catch (generateContent model prompt)
    (fun error =>
       emit (ConsoleError "API generation error:" error) ;;
       throw (Error "Failed to generate API")).

(** The prompt of [generateJavaApp]. *)
Definition java_app_prompt (appName description features springBoot : jsval)
  : outcome string :=
  let! n := to_string Number_toString appName in
  let! d := to_string Number_toString description in
  let! fs := join_of "features" ", " (default features (JArray [])) in
  let! sb := ToString Number_toString (default springBoot (JBool true)) in
  Returns (generateJavaApp_prompt n d fs sb).

(** [generateJavaApp(appName, description, features = [], springBoot = true)] *)
Definition generateJavaApp (appName description features springBoot : jsval) : M string :=
  prompt <- lift (java_app_prompt appName description features springBoot) ;;
  try_catch (generateContent model prompt)
    (fun error =>
       emit (ConsoleError "Java app generation error:" error) ;;
       throw (Error "Failed to generate Java application")).
End Generators.

(** ** [components/GeminiChat.js]

    The state of the component, and one call of [sendMessage] from the
    state it was rendered with to the state after its last update, with no
    other update in between, for a request whose [fetch] settles. *)

(** A message of the conversation, [{ role, content }]. *)
Record entry : Type := { role : string; content : jsval }.

Record client : Type :=
  { messages : list entry;
    input : string;
    isLoading : bool;
    selectedMode : string }.

(** The state of the component when it is mounted. *)
Definition greeting : string :=
  join nl
    [ "Hello! I'm your Axiom AI assistant powered by Gemini. I can help you with:"
    ; ""
    ; "• Code generation (JavaScript, Java, Python)"
    ; "• Firebase functions"
    ; "• Advanced Java scripting"
    ; "• Code analysis and optimization"
    ; "• General programming questions"
    ; ""
    ; "What would you like to work on today?"
    ].

Definition mounted : client :=
  {| messages := [{| role := "assistant"; content := Some (JString greeting) |}];
     input := "";
     isLoading := false;
     selectedMode := "chat" |}.

(** The ids of the mode buttons. *)
Definition mode_ids : list string := ["chat"; "code"; "java"; "firebase"; "analyze"].

Definition byte_is (c : ascii) (n : N) : bool := (N_of_ascii c =? n)%N.

(** A white space or line terminator of one byte. *)
Definition space1 (c : ascii) : bool :=
  let n := N_of_ascii c in (((9 <=? n) && (n <=? 13)) || (n =? 32))%N.

(** U+00A0, in UTF-8. *)
Definition space2 (c1 c2 : ascii) : bool := byte_is c1 194 && byte_is c2 160.

(** U+1680, U+2000 to U+200A, U+2028, U+2029, U+202F, U+205F, U+3000 and
    U+FEFF, in UTF-8. *)
Definition space3 (c1 c2 c3 : ascii) : bool :=
  let n3 := N_of_ascii c3 in
  (byte_is c1 225 && byte_is c2 154 && byte_is c3 128)
  || (byte_is c1 226 && byte_is c2 128
      && (((128 <=? n3) && (n3 <=? 138)) || (n3 =? 168) || (n3 =? 169) || (n3 =? 175))%N)
  || (byte_is c1 226 && byte_is c2 129 && byte_is c3 159)
  || (byte_is c1 227 && byte_is c2 128 && byte_is c3 128)
  || (byte_is c1 239 && byte_is c2 187 && byte_is c3 191).

(** [!input.trim()]: the text holds nothing but white space. *)
Fixpoint blank (s : string) : bool :=
  match s with
  | EmptyString => true
  | String c1 rest1 =>
      if space1 c1 then blank rest1
      else match rest1 with
           | EmptyString => false
           | String c2 rest2 =>
               if space2 c1 c2 then blank rest2
               else match rest2 with
                    | EmptyString => false
                    | String c3 rest3 => if space3 c1 c2 c3 then blank rest3 else false
                    end
           end
  end.

(** [xs.slice(-n)]: the last [n] elements, or all of them. *)
Definition slice_last {A} (n : nat) (xs : list A) : list A :=
  skipn (List.length xs - n) xs.

(** A message as [JSON.stringify] writes it: a content that is [undefined]
    is left out. *)
Definition entry_json (m : entry) : json :=
  JObject (("role", JString (role m))
             :: match content m with
                | Some c => [("content", c)]
                | None => []
                end).

(** The request of [sendMessage].  It holds the object that
    [JSON.stringify] is given, which is what the endpoint reads back from
    the body (a number, if a content holds one, with the literal it was
    read from). *)
Definition chat_request (st : client) : request :=
  {| method := "POST";
     body := Some (JObject
                     [ ("message", JString (input st))
                     ; ("mode", JString (selectedMode st))
                     ; ("conversationHistory",
                        JArray (map entry_json (slice_last 10 (messages st)))) ]) |}.

(** What [fetch] and [response.json()] give: a rejection of either, or the
    status and the parsed body of the answer. *)
Inductive fetched : Type :=
| Rejected
| Answered (status : nat) (data : json).

(** [response.ok] *)
Definition ok (status : nat) : bool := ((200 <=? status) && (status <=? 299))%nat.

Definition apology : entry :=
  {| role := "assistant";
     content := Some (JString "Sorry, I encountered an error. Please try again.") |}.

(** The message that the [try] of [sendMessage] adds: the [response] member
    of an answer that is [ok], the apology of the [catch] otherwise. *)
Definition reply_of (answer : fetched) : entry :=
  match answer with
  | Rejected => apology
  | Answered status data =>
      if ok status then
        match member data "response" with
        | Returns response => {| role := "assistant"; content := response |}
        | Throws _ => apology
        end
      else apology
  end.

(** The state while the request is awaited. *)
Definition pending (st : client) : client :=
  {| messages := (messages st ++ [{| role := "user"; content := Some (JString (input st)) |}])%list;
     input := "";
     isLoading := true;
     selectedMode := selectedMode st |}.

(** [sendMessage()]: the state after it, and the requests it made. *)
Definition sendMessage (fetch : request -> fetched) (st : client)
  : client * list request :=
  if (blank (input st) || isLoading st)%bool then (st, [])
  else
    let waiting := pending st in
    let request := chat_request st in
    ({| messages := (messages waiting ++ [reply_of (fetch request)])%list;
        input := input waiting;
        isLoading := false;
        selectedMode := selectedMode waiting |},
     [request]).

(** The endpoint as [fetch] sees it; a handler that threw would leave the
    answer to the framework. *)
Definition endpoint (handler : request -> M response) (req : request) : fetched :=
  match result (handler req) with
  | Returns resp => Answered (status resp) (JObject (payload resp))
  | Throws _ => Answered 500 JNull
  end.

(** ** Vocabulary of the further properties *)

(** The character [c] stands somewhere in [s]. *)
Fixpoint occurs (c : ascii) (s : string) : bool :=
  match s with
  | EmptyString => false
  | String c' s' => ((c' =? c)%char || occurs c s')%bool
  end.

(** The text between braces. *)
Definition braced (mid : string) : string :=
  String open_brace (mid ++ String close_brace "").

(** The lexer of [JSON.parse] after the text [s]: its state, and the tokens
    it has written. *)
Fixpoint lex_run (st : Json.lexer) (s : string) : option (Json.lexer * list Json.token) :=
  match s with
  | EmptyString => Some (st, [])
  | String c s' =>
      match Json.lex_step st c with
      | Some (st', toks) =>
          match lex_run st' s' with
          | Some (st'', more) => Some (st'', (toks ++ more)%list)
          | None => None
          end
      | None => None
      end
  end.

(** What is thrown, if anything, is a [TypeError] of the engine. *)
Definition only_type_errors {A} (o : outcome A) : Prop :=
  match o with
  | Returns _ => True
  | Throws (TypeError _) => True
  | Throws _ => False
  end.

(** The mode runs [chat]: it is none of the four that the [switch] names. *)
Definition runs_chat (mode : json) : bool :=
  negb (is_mode mode "code" || is_mode mode "java" || is_mode mode "firebase"
        || is_mode mode "analyze").

(** A value that is neither [null] nor an object: reading a member of it
    gives [undefined]. *)
Definition memberless (v : json) : bool :=
  match v with
  | JNull | JObject _ => false
  | JBool _ | JNumber _ | JString _ | JArray _ => true
  end.

(** How an operation that guards one call of the provider ends, given the
    outcome of assembling its prompt: it returns the text of the provider;
    or it throws the [TypeError] of the assembly, the provider not called;
    or it throws its own [failure], the provider called once and failed. *)
Definition ends_as_guarded (model : provider) (failure : string)
    (prompt : outcome string) (r : M string) : Prop :=
  match result r with
  | Returns text =>
      exists p, prompt = Returns p /\ model p = Text text
                /\ provider_calls (trace r) = [p]
  | Throws e =>
      (exists m, e = TypeError m /\ prompt = Throws e /\ provider_calls (trace r) = [])
      \/ (e = Error failure
          /\ exists p m, prompt = Returns p /\ model p = Fails m
                         /\ provider_calls (trace r) = [p])
  end.

(** An endpoint of [generateAPI], [{ method, path, description }]. *)
Definition api_endpoint (e : string * string * string) : json :=
  let '(method, path, description) := e in
  JObject [ ("method", JString method); ("path", JString path)
          ; ("description", JString description) ].

(** The line of the prompt for it. *)
Definition endpoint_line (e : string * string * string) : string :=
  let '(method, path, description) := e in
  method ++ " " ++ path ++ " - " ++ description.

Definition is_array (v : jsval) : bool :=
  match v with
  | Some (JArray _) => true
  | _ => false
  end.

(** A message whose content is a string. *)
Definition textual (m : entry) : bool :=
  match content m with
  | Some (JString _) => true
  | _ => false
  end.

(** A message as the prompt of [chat] shows it. *)
Definition entry_line (m : entry) : string :=
  match content m with
  | Some (JString c) => role m ++ ": " ++ c
  | _ => ""
  end.

(** Calls of [sendMessage] one after the other, each made when the one
    before is over and with nothing typed in between; [fetches] holds what
    [fetch] would do at each call.  The result is the last state and the
    requests that were made, in order. *)
Fixpoint presses (fetches : list (request -> fetched)) (st : client)
  : client * list request :=
  match fetches with
  | [] => (st, [])
  | fetch :: later =>
      let (st', first) := sendMessage fetch st in
      let (st'', others) := presses later st' in
      (st'', (first ++ others)%list)
  end.
(** ** [JSON.parse] on a text that starts with a brace *)

Lemma deliver_inside_object v f stack st' stack' :
  rooted_in_object (f :: stack) = true ->
  Json.deliver v (f :: stack) = Some (st', stack') ->
  inside_object st' stack'.
Proof.
  intros Hroot Hd.
  destruct f as [items | ms [k |]]; cbn in Hd; inversion Hd; subst; clear Hd;
    destruct stack; cbn in *; assumption || discriminate.
Qed.

Lemma close_inside_object (close : list Json.frame -> option (Json.pstate * list Json.frame))
    stack st' stack' :
  close = Json.close_array \/ close = Json.close_object ->
  rooted_in_object stack = true ->
  close stack = Some (st', stack') ->
  inside_object st' stack'.
Proof.
  intros Hclose Hroot Hc.
  destruct stack as [| top below]; [discriminate Hroot |].
  destruct below as [| f below].
  - destruct top as [items | ms [k |]]; try discriminate Hroot;
      destruct Hclose as [-> | ->]; cbn in Hc; try discriminate Hc.
    inversion Hc; subst. split; reflexivity.
  - assert (Hbelow : rooted_in_object (f :: below) = true)
      by (destruct top; exact Hroot).
    destruct Hclose as [-> | ->]; destruct top as [items | ms [k |]];
      cbn [Json.close_array Json.close_object] in Hc; try discriminate Hc;
      eapply deliver_inside_object; eassumption.
Qed.

Lemma parse_step_inside_object st stack t st' stack' :
  inside_object st stack ->
  Json.parse_step st stack t = Some (st', stack') ->
  inside_object st' stack'.
Proof.
  intros Hin Hstep.
  assert (Hvalue : forall stack0,
             rooted_in_object stack0 = true ->
             Json.value_token t stack0 = Some (st', stack') ->
             inside_object st' stack').
  { intros stack0 Hroot Hv.
    destruct stack0 as [| f below]; [discriminate Hroot |].
    destruct t; cbn [Json.value_token] in Hv; try discriminate Hv;
      try (eapply deliver_inside_object; eassumption);
      inversion Hv; subst; cbn; destruct f; exact Hroot. }
  assert (Hkey : forall stack0,
             rooted_in_object stack0 = true ->
             Json.key_token t stack0 = Some (st', stack') ->
             inside_object st' stack').
  { intros stack0 Hroot Hk.
    destruct t; try discriminate Hk.
    destruct stack0 as [| [items | ms [k |]] below]; try discriminate Hk.
    cbn in Hk. inversion Hk; subst. cbn. destruct below; exact Hroot. }
  destruct st; cbn [inside_object Json.parse_step] in Hin, Hstep;
    try discriminate Hstep.
  - eauto.
  - destruct t; eauto.
    eapply close_inside_object; [left; reflexivity | |]; eassumption.
  - destruct t; eauto.
    eapply close_inside_object; [right; reflexivity | |]; eassumption.
  - eauto.
  - destruct t; try discriminate Hstep. inversion Hstep; subst. exact Hin.
  - destruct t; try discriminate Hstep.
    + eapply close_inside_object; [right; reflexivity | |]; eassumption.
    + eapply close_inside_object; [left; reflexivity | |]; eassumption.
    + destruct stack as [| [items | ms [k |]] below]; try discriminate Hstep;
        inversion Hstep; subst; exact Hin.
Qed.

Lemma parse_tokens_inside_object ts : forall st stack v,
  inside_object st stack ->
  Json.parse_tokens st stack ts = Some v ->
  is_object v = true.
Proof.
  induction ts as [| t ts IH]; intros st stack v Hin Hp; cbn [Json.parse_tokens] in Hp.
  - destruct st; try discriminate Hp. inversion Hp; subst. apply Hin.
  - destruct (Json.parse_step st stack t) as [[st' stack'] |] eqn:Hstep;
      [| discriminate Hp].
    eapply IH; [| exact Hp].
    eapply parse_step_inside_object; eassumption.
Qed.

Lemma lex_open_brace rest :
  Json.lex Json.LStart (String open_brace rest)
  = match Json.lex Json.LStart rest with
    | Some more => Some (Json.TLBrace :: more)
    | None => None
    end.
Proof. reflexivity. Qed.

(** What [JSON.parse] makes of a text that starts with an opening brace is
    an object. *)
Lemma parse_braced_is_object rest v :
  JSON_parse (String open_brace rest) = Some v -> is_object v = true.
Proof.
  unfold JSON_parse, Json.parse. rewrite lex_open_brace.
  destruct (Json.lex Json.LStart rest) as [more |]; [| discriminate].
  cbn [Json.parse_tokens Json.parse_step Json.value_token].
  apply parse_tokens_inside_object. reflexivity.
Qed.

(** The text that the regular expression matches starts with a brace. *)
Lemma match_braces_starts_with_brace text span :
  match_braces text = Some span -> exists rest, span = String open_brace rest.
Proof.
  unfold match_braces. intros H.
  destruct (after_first_open text) as [rest |]; [| discriminate H].
  destruct (through_last_close rest) as [p |]; [| discriminate H].
  inversion H. eauto.
Qed.

Section Dispatcher.
Variable Number_toString : string -> string.
Variable StringToNumber_sign : string -> option comparison.
Variable model : provider.

Let handle_chat := chat_handler Number_toString StringToNumber_sign model.
Let handle_project_builder := project_builder_handler Number_toString model.
Let route := dispatch Number_toString StringToNumber_sign model.
Let plan_of := generateProjectPlan Number_toString model.
Let system_prompt := plan_prompt Number_toString.

(** Every operation of the gateway wraps its one call of the provider the
    same way: a throw is logged and replaced by a fixed error. *)
Lemma guarded_call (label failure prompt : string) :
  try_catch (generateContent model prompt)
    (fun error => emit (ConsoleError label error) ;; throw (Error failure))
  = match model prompt with
    | Text text => ([ProviderCall prompt], Returns text)
    | Fails m =>
        ([ProviderCall prompt; ConsoleError label (ProviderError m)],
         Throws (Error failure))
    end.
Proof.
  unfold generateContent, try_catch, bind, emit, ret, throw.
  destruct (model prompt); reflexivity.
Qed.

Lemma bind_lift {A B} (o : outcome A) (k : A -> M B) :
  bind (lift o) k = match o with
                    | Returns a => k a
                    | Throws e => ([], Throws e)
                    end.
Proof.
  unfold bind, lift. destruct o as [a | e]; [| reflexivity].
  destruct (k a) as [t r]. reflexivity.
Qed.

(** A request that is not a POST is answered before its body is read. *)
Lemma handle_chat_not_post now req :
  method req <> "POST" ->
  handle_chat now req
  = ([], Returns {| status := 405;
                    payload := [("error", JString "Method not allowed")] |}).
Proof.
  intros Hm. unfold handle_chat, chat_handler.
  destruct (String.eqb_spec (method req) "POST") as [E | _]; [contradiction | reflexivity].
Qed.

Lemma handle_project_builder_not_post now req :
  method req <> "POST" ->
  handle_project_builder now req
  = ([], Returns {| status := 405;
                    payload := [("error", JString "Method not allowed")] |}).
Proof.
  intros Hm. unfold handle_project_builder, project_builder_handler.
  destruct (String.eqb_spec (method req) "POST") as [E | _]; [contradiction | reflexivity].
Qed.

(** A body that is neither [null] nor [undefined] is destructured into
    its members. *)
Lemma destructure_members first req :
  nullish (body req) = false ->
  destructure first "req.body" (body req) = Returns (members req).
Proof.
  unfold members. destruct (body req) as [[| b | lit | s | xs | ps] |];
    first [discriminate | reflexivity].
Qed.

Lemma destructure_nullish first req :
  nullish (body req) = true ->
  destructure first "req.body" (body req) = Throws (refusal first (body req)).
Proof.
  destruct (body req) as [[| b | lit | s | xs | ps] |]; first [discriminate | reflexivity].
Qed.

(** Only an object has members. *)
Lemma member_of_object req key v :
  get (members req) key = Some v -> nullish (body req) = false.
Proof.
  unfold members. destruct (body req) as [[| b | lit | s | xs | ps] |];
    first [discriminate | reflexivity].
Qed.

(** A POST whose body is [null] or [undefined]: the destructuring throws
    inside the [try]. *)
Lemma handle_chat_nullish now req :
  method req = "POST" ->
  nullish (body req) = true ->
  handle_chat now req
  = ([ConsoleError "Chat API Error:" (refusal "message" (body req))],
     Returns {| status := 500;
                payload := [ ("error", JString "Failed to process chat message")
                           ; ("details",
                              JString (error_message (refusal "message" (body req)))) ] |}).
Proof.
  intros Hm Hb. unfold handle_chat, chat_handler.
  rewrite Hm, (destructure_nullish "message" req Hb). reflexivity.
Qed.

Lemma handle_project_builder_nullish now req :
  method req = "POST" ->
  nullish (body req) = true ->
  handle_project_builder now req
  = ([ConsoleError "Project Builder Error:" (refusal "prompt" (body req))],
     Returns {| status := 500;
                payload := [ ("error", JString "Failed to generate project plan")
                           ; ("details",
                              JString (error_message (refusal "prompt" (body req)))) ] |}).
Proof.
  intros Hm Hb. unfold handle_project_builder, project_builder_handler.
  rewrite Hm, (destructure_nullish "prompt" req Hb). reflexivity.
Qed.

(** The chat handler on a POST whose message is falsy. *)
Lemma handle_chat_falsy now req :
  method req = "POST" ->
  nullish (body req) = false ->
  truthy StringToNumber_sign (get (members req) "message") = false ->
  handle_chat now req
  = ([], Returns {| status := 400;
                    payload := [("error", JString "Message is required")] |}).
Proof.
  intros Hm Hb Hf. unfold handle_chat, chat_handler.
  rewrite Hm, (destructure_members "message" req Hb), bind_lift, Hf. reflexivity.
Qed.

(** The chat handler on a POST whose message is truthy: the response is
    made from what the gateway's operation gave. *)
Lemma handle_chat_truthy now req :
  method req = "POST" ->
  nullish (body req) = false ->
  truthy StringToNumber_sign (get (members req) "message") = true ->
  let mode := default (get (members req) "mode") (JString "chat") in
  handle_chat now req
  = match route mode (get (members req) "message")
            (Some (default (get (members req) "conversationHistory") (JArray []))) with
    | (t, Returns text) =>
        (t, Returns {| status := 200;
                       payload := [ ("success", JBool true)
                                  ; ("response", JString text)
                                  ; ("mode", mode)
                                  ; ("timestamp", JString now) ] |})
    | (t, Throws e) =>
        ((t ++ [ConsoleError "Chat API Error:" e])%list,
         Returns {| status := 500;
                    payload := [ ("error", JString "Failed to process chat message")
                               ; ("details", JString (error_message e)) ] |})
    end.
Proof.
  intros Hm Hb Ht mode. unfold handle_chat, chat_handler.
  rewrite Hm, (destructure_members "message" req Hb), bind_lift, Ht.
  cbn [String.eqb negb]. simpl negb.
  fold mode. unfold route.
  destruct (dispatch _ _ _ _ _ _) as [t [text | e]];
    cbn; rewrite ?app_nil_r; reflexivity.
Qed.

(** C7: a request to [/chat] or to [/project-builder] whose method is not
    POST is answered 405 with [{ error: 'Method not allowed' }], whatever its
    body holds, and the provider is not called. *)
Theorem non_post_is_method_not_allowed now req :
  method req <> "POST" ->
  let not_allowed := {| status := 405;
                        payload := [("error", JString "Method not allowed")] |} in
  sent (handle_chat now req) = Some not_allowed
  /\ provider_calls (trace (handle_chat now req)) = []
  /\ sent (handle_project_builder now req) = Some not_allowed
  /\ provider_calls (trace (handle_project_builder now req)) = [].
Proof.
  intros Hm not_allowed.
  rewrite (handle_chat_not_post now req Hm).
  rewrite (handle_project_builder_not_post now req Hm).
  repeat split.
Qed.

(** C6, as the code has it: a request to [/chat] whose message is missing
    or empty never reaches the provider.  It is answered 400 with
    [{ error: "Message is required" }] when its method is POST and its body
    is neither [null] nor [undefined]; a request that is not a POST is
    answered 405, and a POST whose body is [null] or [undefined] is answered
    500, with the message of the [TypeError] that the destructuring throws
    as details. *)
Theorem missing_message_is_bad_request now req :
  get (members req) "message" = None \/ get (members req) "message" = Some (JString "") ->
  provider_calls (trace (handle_chat now req)) = []
  /\ (method req = "POST" -> nullish (body req) = false ->
      sent (handle_chat now req)
      = Some {| status := 400; payload := [("error", JString "Message is required")] |})
  /\ (method req <> "POST" ->
      sent (handle_chat now req)
      = Some {| status := 405; payload := [("error", JString "Method not allowed")] |})
  /\ (method req = "POST" -> nullish (body req) = true ->
      sent (handle_chat now req)
      = Some {| status := 500;
                payload := [ ("error", JString "Failed to process chat message")
                           ; ("details",
                              JString (error_message (refusal "message" (body req)))) ] |}).
Proof.
  intros Hmsg.
  assert (Hf : truthy StringToNumber_sign (get (members req) "message") = false)
    by (destruct Hmsg as [-> | ->]; reflexivity).
  split; [| split; [| split]].
  - destruct (String.eqb_spec (method req) "POST") as [Hm | Hm].
    2: { rewrite (handle_chat_not_post now req Hm). reflexivity. }
    destruct (nullish (body req)) eqn:Hb.
    + rewrite (handle_chat_nullish now req Hm Hb). reflexivity.
    + rewrite (handle_chat_falsy now req Hm Hb Hf). reflexivity.
  - intros Hm Hb. rewrite (handle_chat_falsy now req Hm Hb Hf). reflexivity.
  - intros Hm. rewrite (handle_chat_not_post now req Hm). reflexivity.
  - intros Hm Hb. rewrite (handle_chat_nullish now req Hm Hb). reflexivity.
Qed.

(** ** The operations of the gateway *)

(** The [switch]: each mode runs one guarded call on the prompt of its
    operation. *)
Lemma route_guarded mode message conversationHistory :
  route mode message conversationHistory
  = guarded model (label_of mode) (failure_of mode)
      (prompt_of Number_toString StringToNumber_sign mode message conversationHistory).
Proof.
  unfold route, dispatch, prompt_of, label_of, failure_of.
  destruct (is_mode mode "code").
  { unfold generateCode. rewrite bind_lift.
    destruct (to_string Number_toString message) as [d | e]; [| reflexivity].
    cbn [and_then guarded]. apply guarded_call. }
  destruct (is_mode mode "java").
  { unfold generateJavaCode. rewrite bind_lift.
    destruct (to_string Number_toString message) as [d | e]; [| reflexivity].
    cbn [and_then guarded]. apply guarded_call. }
  destruct (is_mode mode "firebase").
  { unfold generateFirebaseFunction. rewrite bind_lift.
    destruct (to_string Number_toString message) as [d | e]; [| reflexivity].
    cbn [and_then guarded]. apply guarded_call. }
  destruct (is_mode mode "analyze").
  { unfold analyzeCode. rewrite bind_lift.
    destruct (to_string Number_toString message) as [d | e]; [| reflexivity].
    cbn [and_then guarded]. apply guarded_call. }
  unfold chat. rewrite bind_lift.
  destruct (chat_prompt _ _ _ _) as [p | e]; [| reflexivity].
  cbn [guarded]. apply guarded_call.
Qed.

(** The chat handler on a POST with a truthy message, case by case. *)
Lemma handle_chat_cases now req :
  method req = "POST" ->
  nullish (body req) = false ->
  truthy StringToNumber_sign (get (members req) "message") = true ->
  let mode := default (get (members req) "mode") (JString "chat") in
  let failed e := {| status := 500;
                     payload := [ ("error", JString "Failed to process chat message")
                                ; ("details", JString (error_message e)) ] |} in
  handle_chat now req
  = match prompt_of Number_toString StringToNumber_sign mode (get (members req) "message")
            (Some (default (get (members req) "conversationHistory") (JArray []))) with
    | Throws e => ([ConsoleError "Chat API Error:" e], Returns (failed e))
    | Returns p =>
        match model p with
        | Text text =>
            ([ProviderCall p],
             Returns {| status := 200;
                        payload := [ ("success", JBool true)
                                   ; ("response", JString text)
                                   ; ("mode", mode)
                                   ; ("timestamp", JString now) ] |})
        | Fails m =>
            ([ ProviderCall p
             ; ConsoleError (label_of mode) (ProviderError m)
             ; ConsoleError "Chat API Error:" (Error (failure_of mode)) ],
             Returns (failed (Error (failure_of mode))))
        end
    end.
Proof.
  intros Hm Hb Ht mode failed.
  rewrite (handle_chat_truthy now req Hm Hb Ht). fold mode.
  rewrite route_guarded. unfold guarded.
  destruct (prompt_of _ _ _ _ _) as [p | e]; [| reflexivity].
  destruct (model p); reflexivity.
Qed.

Lemma get_with_member_other (ps : list (string * json)) k v key :
  key <> k -> get (ps ++ [(k, v)]) key = get ps key.
Proof.
  intros Hk. unfold get. induction ps as [| [k0 v0] ps IH]; cbn [lookup app].
  - destruct (String.eqb_spec k key) as [E | _]; [congruence | reflexivity].
  - rewrite IH. reflexivity.
Qed.

Lemma get_with_member_same (ps : list (string * json)) k v :
  get (ps ++ [(k, v)]) k = Some v.
Proof.
  unfold get. induction ps as [| [k0 v0] ps IH]; cbn [lookup app].
  - rewrite String.eqb_refl. reflexivity.
  - rewrite IH. reflexivity.
Qed.

(** Setting a member of a body that is an object. *)
Lemma with_member_of_object req key0 v0 k v :
  get (members req) key0 = Some v0 ->
  members (with_member req k v) = (members req ++ [(k, v)])%list
  /\ nullish (body (with_member req k v)) = false.
Proof.
  unfold members, with_member. cbn [body].
  destruct (body req) as [[| b | lit | s | xs | ps] |];
    first [discriminate | split; reflexivity].
Qed.



(** C2, as the code has it: when the call of the provider throws, with
    whatever message [m], [/chat] answers 500 with the error
    ["Failed to process chat message"] and, as details, the fixed message of
    the operation that the mode selects.  The error of the provider is
    logged with [console.error] by that operation, under its label, and the
    fixed error by the handler; [m] is in the log and in no part of the
    body. *)
Theorem provider_failure_is_masked now req p m :
  In (ProviderCall p) (trace (handle_chat now req)) ->
  model p = Fails m ->
  let mode := default (get (members req) "mode") (JString "chat") in
  sent (handle_chat now req)
  = Some {| status := 500;
            payload :=
              [ ("error", JString "Failed to process chat message")
              ; ("details", JString (failure_of mode)) ] |}
  /\ trace (handle_chat now req)
     = [ ProviderCall p
       ; ConsoleError (label_of mode) (ProviderError m)
       ; ConsoleError "Chat API Error:" (Error (failure_of mode)) ].
Proof.
  intros Hcall Hfail mode. subst mode. revert Hcall.
  destruct (String.eqb_spec (method req) "POST") as [Hm | Hm].
  2: { rewrite (handle_chat_not_post now req Hm). intros []. }
  destruct (nullish (body req)) eqn:Hb.
  1: { rewrite (handle_chat_nullish now req Hm Hb). intros [Hcall | []]. discriminate Hcall. }
  destruct (truthy StringToNumber_sign (get (members req) "message")) eqn:Ht.
  2: { rewrite (handle_chat_falsy now req Hm Hb Ht). intros []. }
  rewrite (handle_chat_cases now req Hm Hb Ht).
  destruct (prompt_of _ _ _ _ _) as [p0 | e].
  2: { intros [Hcall | []]. discriminate Hcall. }
  destruct (model p0) as [text | m0] eqn:Hp0.
  - intros [Hcall | []]. injection Hcall as ->. congruence.
  - intros [Hcall | [Hcall | [Hcall | []]]]; try discriminate Hcall.
    injection Hcall as ->. rewrite Hfail in Hp0. injection Hp0 as ->.
    split; reflexivity.
Qed.

(** C8: two runs of the chat handler on one request, against one provider,
    call the provider alike and send the same status and the same body
    members, [response] among them, whatever the clock says at each run;
    only [timestamp] follows the clock. *)
Theorem response_does_not_depend_on_the_run now1 now2 req :
  trace (handle_chat now1 req) = trace (handle_chat now2 req)
  /\ status_of (handle_chat now1 req) = status_of (handle_chat now2 req)
  /\ field (handle_chat now1 req) "response" = field (handle_chat now2 req) "response"
  /\ (forall key, key <> "timestamp" ->
      field (handle_chat now1 req) key = field (handle_chat now2 req) key).
Proof.
  destruct (String.eqb_spec (method req) "POST") as [Hm | Hm].
  2: { rewrite (handle_chat_not_post now1 req Hm), (handle_chat_not_post now2 req Hm).
       repeat split. }
  destruct (nullish (body req)) eqn:Hb.
  1: { rewrite (handle_chat_nullish now1 req Hm Hb), (handle_chat_nullish now2 req Hm Hb).
       repeat split. }
  destruct (truthy StringToNumber_sign (get (members req) "message")) eqn:Ht.
  2: { rewrite (handle_chat_falsy now1 req Hm Hb Ht), (handle_chat_falsy now2 req Hm Hb Ht).
       repeat split. }
  rewrite (handle_chat_cases now1 req Hm Hb Ht), (handle_chat_cases now2 req Hm Hb Ht).
  destruct (prompt_of _ _ _ _ _) as [p | e]; [| repeat split].
  destruct (model p) as [text | m]; [| repeat split].
  repeat split.
  intros key Hkey.
  assert (E : ("timestamp" =? key) = false) by (apply String.eqb_neq; congruence).
  unfold field, sent, result, get. cbn [snd payload lookup]. rewrite E. reflexivity.
Qed.

(** The operations behind [code], [java], [firebase] and [analyze] do not
    read the history. *)
Lemma prompt_of_ignores_history name message h1 h2 :
  In name ["code"; "java"; "firebase"; "analyze"] ->
  prompt_of Number_toString StringToNumber_sign (JString name) message h1
  = prompt_of Number_toString StringToNumber_sign (JString name) message h2.
Proof.
  intros Hin. cbn [In] in Hin.
  destruct Hin as [<- | [<- | [<- | [<- | []]]]]; reflexivity.
Qed.

(** C10: under the modes [code], [java], [firebase] and [analyze] the
    answer depends on the method, the message and the mode only (the
    history and any other member of the body are ignored), and the provider
    gets the prompt of the operation with hard-coded parameters: language
    [javascript] and three fixed requirements for [code], class
    [GeneratedClass] and three fixed features for [java], function
    [generatedFunction] for [firebase], language [javascript] for
    [analyze]. *)
Theorem auxiliary_parameters_are_hard_coded now req name :
  get (members req) "mode" = Some (JString name) ->
  In name ["code"; "java"; "firebase"; "analyze"] ->
  (forall req',
      method req' = method req ->
      get (members req') "message" = get (members req) "message" ->
      get (members req') "mode" = Some (JString name) ->
      handle_chat now req' = handle_chat now req)
  /\ (forall history,
         handle_chat now (with_member req "conversationHistory" history)
         = handle_chat now req)
  /\ (forall message,
         method req = "POST" ->
         truthy StringToNumber_sign (get (members req) "message") = true ->
         to_string Number_toString (get (members req) "message") = Returns message ->
         let sent_prompts := provider_calls (trace (handle_chat now req)) in
         (name = "code" ->
          sent_prompts
          = [generateCode_prompt "javascript" message
               ["Clean, readable code"; "Error handling"; "Best practices"]])
         /\ (name = "java" ->
             sent_prompts
             = [generateJavaCode_prompt "GeneratedClass" message
                  ["Modern Java patterns"; "Documentation"; "Unit tests"]])
         /\ (name = "firebase" ->
             sent_prompts
             = [generateFirebaseFunction_prompt "generatedFunction" message])
         /\ (name = "analyze" ->
             sent_prompts = [analyzeCode_prompt message "javascript"])).
Proof.
  intros Hmode Hin.
  pose proof (member_of_object req "mode" (JString name) Hmode) as Hb.
  assert (Hsame : forall req',
             method req' = method req ->
             get (members req') "message" = get (members req) "message" ->
             get (members req') "mode" = Some (JString name) ->
             handle_chat now req' = handle_chat now req).
  { intros req' Hmethod Hmsg Hmode'.
    pose proof (member_of_object req' "mode" (JString name) Hmode') as Hb'.
    destruct (String.eqb_spec (method req) "POST") as [Hm | Hm].
    2: { rewrite (handle_chat_not_post now req Hm).
         apply handle_chat_not_post. congruence. }
    destruct (truthy StringToNumber_sign (get (members req) "message")) eqn:Ht.
    2: { rewrite (handle_chat_falsy now req Hm Hb Ht).
         apply handle_chat_falsy; congruence. }
    rewrite (handle_chat_cases now req Hm Hb Ht).
    rewrite (handle_chat_cases now req') by congruence.
    rewrite Hmsg, Hmode', Hmode. cbn [default].
    rewrite (prompt_of_ignores_history name (get (members req) "message")
               (Some (default (get (members req') "conversationHistory") (JArray [])))
               (Some (default (get (members req) "conversationHistory") (JArray []))) Hin).
    reflexivity. }
  split; [exact Hsame |]. split.
  - intros history.
    destruct (with_member_of_object req "mode" (JString name) "conversationHistory"
                history Hmode) as [Hms _].
    apply Hsame.
    + reflexivity.
    + rewrite Hms. apply get_with_member_other. discriminate.
    + rewrite Hms, get_with_member_other by discriminate. exact Hmode.
  - intros message Hm Ht Hmsg sent_prompts. subst sent_prompts.
    rewrite (handle_chat_cases now req Hm Hb Ht). rewrite Hmode. cbn [default].
    repeat split; intros ->; unfold prompt_of; cbn [is_mode String.eqb Ascii.eqb Bool.eqb];
      rewrite Hmsg; cbn [and_then]; destruct (model _); reflexivity.
Qed.

(** Turns that are objects with a string [role] and a string [content] are
    rendered one by one. *)
Lemma render_turns history :
  all_of (render_turn Number_toString) (map turn history) = Returns (map rendered history).
Proof.
  induction history as [| t history IH]; [reflexivity |].
  cbn [map all_of]. rewrite IH. destruct t as [role content]. reflexivity.
Qed.

(** The prompt of [chat] for a history that is an array, whatever its
    elements are: the turns are rendered in order, then the message. *)
Lemma chat_prompt_of_array (message : jsval) (msgs : list json) :
  chat_prompt Number_toString StringToNumber_sign message (JArray msgs)
  = (let! lines := all_of (render_turn Number_toString) msgs in
     let! m := to_string Number_toString message in
     Returns (match msgs with
              | [] => ""
              | _ :: _ => "Previous conversation:" ++ nl ++ join nl lines ++ nl ++ nl
              end ++ "User: " ++ m)).
Proof.
  unfold chat_prompt, length_positive, map_turns. cbn [and_then].
  destruct msgs as [| msg msgs]; [reflexivity |].
  cbn [List.length Nat.eqb negb].
  destruct (all_of (render_turn Number_toString) (msg :: msgs)) as [lines | e];
    reflexivity.
Qed.

(** C4: [chat] sends the provider one prompt: the prior turns in order,
    each as [<role>: <content>], joined by newlines (under the heading
    [Previous conversation:] and followed by an empty line, when there is a
    turn), then [User: <message>].  For the history user "a", assistant "b"
    and the message "c", [user: a] stands before [assistant: b], which
    stands before [User: c]. *)
Theorem chat_prompt_keeps_the_order (message : string) (history : list (string * string)) :
  let context :=
    match history with
    | [] => ""
    | _ :: _ => "Previous conversation:" ++ nl ++ join nl (map rendered history) ++ nl ++ nl
    end in
  chat_prompt Number_toString StringToNumber_sign
    (Some (JString message)) (JArray (map turn history))
  = Returns (context ++ "User: " ++ message)
  /\ provider_calls
       (trace (chat Number_toString StringToNumber_sign model
                 (Some (JString message)) (Some (JArray (map turn history)))))
     = [context ++ "User: " ++ message]
  /\ (let prompt := "Previous conversation:" ++ nl ++ "user: a" ++ nl ++ "assistant: b"
                      ++ nl ++ nl ++ "User: c" in
      chat_prompt Number_toString StringToNumber_sign
        (Some (JString "c")) (JArray [turn ("user", "a"); turn ("assistant", "b")])
      = Returns prompt
      /\ index 0 "user: a" prompt = Some 23
      /\ index 0 "assistant: b" prompt = Some 31
      /\ index 0 "User: c" prompt = Some 45
      /\ 23 < 31 < 45).
Proof.
  intros context.
  assert (Hprompt :
            chat_prompt Number_toString StringToNumber_sign
              (Some (JString message)) (JArray (map turn history))
            = Returns (context ++ "User: " ++ message)).
  { rewrite chat_prompt_of_array, render_turns. cbn [and_then to_string ToString].
    subst context. destruct history; reflexivity. }
  split; [exact Hprompt |]. split.
  - unfold chat. cbn [default]. rewrite Hprompt, bind_lift, guarded_call.
    destruct (model _); reflexivity.
  - cbv zeta. repeat split; try reflexivity; lia.
Qed.

(** ** The project plan *)

Lemma provider_calls_app t1 t2 :
  provider_calls (t1 ++ t2) = (provider_calls t1 ++ provider_calls t2)%list.
Proof.
  induction t1 as [| [p | l e] t1 IH]; cbn [app provider_calls];
    [reflexivity | rewrite IH; reflexivity | exact IH].
Qed.

(** [generateProjectPlan], case by case. *)
Lemma plan_of_cases prompt projectType requirements buildContext :
  let label := "Project plan generation error:" in
  let failure := Error "Failed to generate project plan" in
  plan_of prompt projectType requirements buildContext
  = match system_prompt prompt projectType requirements buildContext with
    | Throws e => ([], Throws e)
    | Returns p =>
        match model p with
        | Fails m => ([ProviderCall p; ConsoleError label (ProviderError m)], Throws failure)
        | Text text =>
            match match_braces text with
            | None => ([ProviderCall p], Returns (unparsed_plan text))
            | Some span =>
                match JSON_parse span with
                | Some plan => ([ProviderCall p], Returns plan)
                | None => ([ProviderCall p; ConsoleError label SyntaxError], Throws failure)
                end
            end
        end
    end.
Proof.
  intros label failure. unfold plan_of, system_prompt, generateProjectPlan.
  rewrite bind_lift.
  destruct (plan_prompt _ _ _ _ _) as [p | e]; [| reflexivity].
  unfold generateContent, extract_plan, try_catch, bind, emit, ret, throw.
  destruct (model p) as [text | m]; [| reflexivity].
  destruct (match_braces text) as [span |]; [| reflexivity].
  destruct (JSON_parse span); reflexivity.
Qed.

(** The project-builder handler on a POST: the response is made from what
    [generateProjectPlan] gave for the members of the body. *)
Lemma handle_project_builder_post now req :
  method req = "POST" ->
  nullish (body req) = false ->
  handle_project_builder now req
  = match plan_of (get (members req) "prompt") (get (members req) "projectType")
            (get (members req) "requirements") (get (members req) "buildContext") with
    | (t, Returns plan) =>
        (t, Returns {| status := 200;
                       payload := [ ("success", JBool true)
                                  ; ("projectPlan", plan)
                                  ; ("timestamp", JString now) ] |})
    | (t, Throws e) =>
        ((t ++ [ConsoleError "Project Builder Error:" e])%list,
         Returns {| status := 500;
                    payload := [ ("error", JString "Failed to generate project plan")
                               ; ("details", JString (error_message e)) ] |})
    end.
Proof.
  intros Hm Hb. unfold handle_project_builder, project_builder_handler, plan_of.
  rewrite Hm, (destructure_members "prompt" req Hb), bind_lift.
  cbn [String.eqb negb]. simpl negb.
  destruct (generateProjectPlan _ _ _ _ _ _) as [t [plan | e]];
    cbn; rewrite ?app_nil_r; reflexivity.
Qed.

(** A response without a brace span is kept as it is, under [analysis]. *)
Lemma text_without_braces_is_kept now req p text :
  method req = "POST" ->
  nullish (body req) = false ->
  system_prompt (get (members req) "prompt") (get (members req) "projectType")
    (get (members req) "requirements") (get (members req) "buildContext") = Returns p ->
  model p = Text text ->
  match_braces text = None ->
  sent (handle_project_builder now req)
  = Some {| status := 200;
            payload := [ ("success", JBool true)
                       ; ("projectPlan", unparsed_plan text)
                       ; ("timestamp", JString now) ] |}.
Proof.
  intros Hm Hb Hp Htext Hspan.
  rewrite (handle_project_builder_post now req Hm Hb).
  rewrite plan_of_cases, Hp, Htext, Hspan. reflexivity.
Qed.

(** C1, as the code has it: when the text of the response holds a brace
    span that is no valid JSON, [generateProjectPlan] throws
    ["Failed to generate project plan"], and [/project-builder] answers 500
    with that message; the text of the response is in no part of the
    answer. *)
Theorem unparsable_span_is_escalated now req p text span :
  method req = "POST" ->
  nullish (body req) = false ->
  system_prompt (get (members req) "prompt") (get (members req) "projectType")
    (get (members req) "requirements") (get (members req) "buildContext") = Returns p ->
  model p = Text text ->
  match_braces text = Some span ->
  JSON_parse span = None ->
  result (plan_of (get (members req) "prompt") (get (members req) "projectType")
            (get (members req) "requirements") (get (members req) "buildContext"))
  = Throws (Error "Failed to generate project plan")
  /\ sent (handle_project_builder now req)
     = Some {| status := 500;
               payload := [ ("error", JString "Failed to generate project plan")
                          ; ("details", JString "Failed to generate project plan") ] |}.
Proof.
  intros Hm Hb Hp Htext Hspan Hparse.
  rewrite (handle_project_builder_post now req Hm Hb).
  rewrite plan_of_cases, Hp, Htext, Hspan, Hparse. split; reflexivity.
Qed.

(** C5, as the code has it: what [generateProjectPlan] returns is either
    the object [{ analysis: text, error: ... }] around the text of a
    response without a brace span, or what [JSON.parse] makes of the span
    from the first opening brace to the last closing brace, which is an
    object; nothing looks at its keys. *)
Theorem returned_plan_is_the_parsed_span prompt projectType requirements buildContext plan :
  result (plan_of prompt projectType requirements buildContext) = Returns plan ->
  exists p text,
    system_prompt prompt projectType requirements buildContext = Returns p
    /\ model p = Text text
    /\ match match_braces text with
       | None => plan = unparsed_plan text
       | Some span => JSON_parse span = Some plan /\ is_object plan = true
       end.
Proof.
  rewrite plan_of_cases.
  destruct (system_prompt _ _ _ _) as [p | e]; [| discriminate].
  destruct (model p) as [text | m] eqn:Hmodel; [| discriminate].
  intros H. exists p, text. split; [reflexivity |]. split; [exact Hmodel |].
  destruct (match_braces text) as [span |] eqn:Hspan.
  - destruct (JSON_parse span) as [parsed |] eqn:Hparse; [| discriminate H].
    inversion H; subst parsed. split; [reflexivity |].
    destruct (match_braces_starts_with_brace text span Hspan) as [rest ->].
    exact (parse_braced_is_object rest plan Hparse).
  - inversion H. reflexivity.
Qed.

Lemma array_join_strings sep ss :
  array_join Number_toString sep (map JString ss) = Returns (join sep ss).
Proof.
  unfold array_join.
  assert (H : all_of (fun x => match x with
                               | JNull => Returns ""
                               | _ => ToString Number_toString x
                               end) (map JString ss) = Returns ss).
  { induction ss as [| s ss IH]; [reflexivity |].
    cbn [map all_of ToString and_then]. rewrite IH. reflexivity. }
  rewrite H. reflexivity.
Qed.

(** Members of the declared types, or missing, always give a prompt. *)
Lemma system_prompt_of_typed_members prompt projectType requirements buildContext :
  optional_string prompt ->
  optional_string projectType ->
  optional_strings requirements ->
  exists p, system_prompt prompt projectType requirements buildContext = Returns p.
Proof.
  intros Hprompt Htype Hreqs. unfold system_prompt, plan_prompt.
  assert (Ht : exists pt, ToString Number_toString (default projectType (JString "web"))
                          = Returns pt)
    by (destruct Htype as [-> | [s ->]]; eexists; reflexivity).
  assert (Hr : exists rs, requirements_join Number_toString
                            (default requirements (JArray [])) = Returns rs).
  { destruct Hreqs as [-> | [ss ->]]; [eexists; reflexivity |].
    exists (join ", " ss). apply array_join_strings. }
  assert (Hp : exists p, to_string Number_toString prompt = Returns p)
    by (destruct Hprompt as [-> | [s ->]]; eexists; reflexivity).
  destruct Ht as [pt ->], Hr as [rs ->], Hp as [p ->].
  eexists. reflexivity.
Qed.

(** C9, as the code has it: [/project-builder] validates nothing, and no
    POST is answered 400.  A body that is neither [null] nor [undefined] is
    destructured, and its members (undefined when missing) go to
    [generateProjectPlan], whose result is sent with 200 and whose throw is
    sent with 500: the answer is 200 whenever the prompt can be assembled
    from those members (as it can when each is missing or of its declared
    type), the provider returns a text, and the text holds no brace span or
    one that is valid JSON; when the prompt cannot be assembled the answer
    is 500 and the provider is not called.  A body that is [null] or
    [undefined] cannot be destructured: [generateProjectPlan] is not called,
    and the answer is 500 with the message of the [TypeError] as details. *)
Theorem project_builder_validates_nothing now req :
  method req = "POST" ->
  let prompt := get (members req) "prompt" in
  let projectType := get (members req) "projectType" in
  let requirements := get (members req) "requirements" in
  let buildContext := get (members req) "buildContext" in
  let plan := plan_of prompt projectType requirements buildContext in
  let answer := handle_project_builder now req in
  status_of answer <> Some 400
  /\ (nullish (body req) = false ->
      trace answer
      = (trace plan
           ++ match result plan with
              | Returns _ => []
              | Throws e => [ConsoleError "Project Builder Error:" e]
              end)%list
      /\ provider_calls (trace answer) = provider_calls (trace plan)
      /\ (forall p, result plan = Returns p ->
            sent answer = Some {| status := 200;
                                  payload := [ ("success", JBool true)
                                             ; ("projectPlan", p)
                                             ; ("timestamp", JString now) ] |})
      /\ (forall e, result plan = Throws e ->
            sent answer
            = Some {| status := 500;
                      payload := [ ("error", JString "Failed to generate project plan")
                                 ; ("details", JString (error_message e)) ] |})
      /\ (forall p text,
            system_prompt prompt projectType requirements buildContext = Returns p ->
            model p = Text text ->
            match match_braces text with
            | None => True
            | Some span => JSON_parse span <> None
            end ->
            status_of answer = Some 200 /\ provider_calls (trace answer) = [p])
      /\ (forall e,
            system_prompt prompt projectType requirements buildContext = Throws e ->
            status_of answer = Some 500 /\ provider_calls (trace answer) = []))
  /\ (optional_string prompt -> optional_string projectType ->
      optional_strings requirements ->
      exists p, system_prompt prompt projectType requirements buildContext = Returns p)
  /\ (nullish (body req) = true ->
      trace answer = [ConsoleError "Project Builder Error:" (refusal "prompt" (body req))]
      /\ sent answer
         = Some {| status := 500;
                   payload := [ ("error", JString "Failed to generate project plan")
                              ; ("details",
                                 JString (error_message (refusal "prompt" (body req)))) ] |}).
Proof.
  intros Hm prompt projectType requirements buildContext plan answer.
  assert (Hpost : nullish (body req) = false ->
                  answer
                  = match plan with
                    | (t, Returns p) =>
                        (t, Returns {| status := 200;
                                       payload := [ ("success", JBool true)
                                                  ; ("projectPlan", p)
                                                  ; ("timestamp", JString now) ] |})
                    | (t, Throws e) =>
                        ((t ++ [ConsoleError "Project Builder Error:" e])%list,
                         Returns {| status := 500;
                                    payload :=
                                      [ ("error", JString "Failed to generate project plan")
                                      ; ("details", JString (error_message e)) ] |})
                    end).
  { intros Hb. subst answer. apply (handle_project_builder_post now req Hm Hb). }
  split; [| split; [| split]].
  - destruct (nullish (body req)) eqn:Hb.
    + subst answer. rewrite (handle_project_builder_nullish now req Hm Hb). discriminate.
    + rewrite (Hpost eq_refl). destruct plan as [t [p | e]]; discriminate.
  - intros Hb. rewrite (Hpost Hb).
    split; [| split; [| split; [| split; [| split]]]].
    + destruct plan as [t [p | e]]; cbn [trace fst result snd];
        [rewrite app_nil_r |]; reflexivity.
    + destruct plan as [t [p | e]]; cbn [trace fst]; [reflexivity |].
      rewrite provider_calls_app. apply app_nil_r.
    + intros p Hp. destruct plan as [t [p' | e]]; cbn in Hp; inversion Hp. reflexivity.
    + intros e He. destruct plan as [t [p' | e']]; cbn in He; inversion He. reflexivity.
    + intros p text Hp Htext Hspan. subst plan.
      rewrite plan_of_cases, Hp, Htext.
      destruct (match_braces text) as [span |]; [| split; reflexivity].
      destruct (JSON_parse span); [split; reflexivity | contradiction].
    + intros e He. subst plan. rewrite plan_of_cases, He. split; reflexivity.
  - apply system_prompt_of_typed_members.
  - intros Hb. subst answer. rewrite (handle_project_builder_nullish now req Hm Hb).
    split; reflexivity.
Qed.
End Dispatcher.


(** * Runs on concrete requests *)

(** A GET with a well-formed body is answered 405 by both handlers. *)
Example non_post_is_method_not_allowed_witness :
  let req := {| method := "GET"; body := Some (JObject [("message", JString "hello")]) |} in
  let not_allowed := {| status := 405;
                        payload := [("error", JString "Method not allowed")] |} in
  method req <> "POST"
  /\ sent (chat_handler literal_text no_sign (fun _ => Text "hi") "2024-01-01T00:00:00.000Z" req)
     = Some not_allowed
  /\ sent (project_builder_handler literal_text (fun _ => Text "hi")
             "2024-01-01T00:00:00.000Z" req)
     = Some not_allowed.
Proof.
  intros req not_allowed.
  assert (Hm : method req <> "POST") by discriminate.
  pose proof (non_post_is_method_not_allowed literal_text no_sign (fun _ => Text "hi")
                "2024-01-01T00:00:00.000Z" req Hm) as (H1 & _ & H2 & _).
  exact (conj Hm (conj H1 H2)).
Defined.

(** A POST with an empty message is answered 400, and nothing is sent to the
    provider. *)
Example missing_message_is_bad_request_witness :
  let req := post [("message", JString ""); ("mode", JString "code")] in
  let answer := chat_handler literal_text no_sign (fun _ => Text "hi")
                  "2024-01-01T00:00:00.000Z" req in
  get (members req) "message" = Some (JString "")
  /\ sent answer
     = Some {| status := 400; payload := [("error", JString "Message is required")] |}
  /\ provider_calls (trace answer) = [].
Proof.
  intros req answer.
  assert (Hmsg : get (members req) "message" = None
                 \/ get (members req) "message" = Some (JString ""))
    by (right; reflexivity).
  pose proof (missing_message_is_bad_request literal_text no_sign (fun _ => Text "hi")
                "2024-01-01T00:00:00.000Z" req Hmsg) as (Hcalls & Hpost & _ & _).
  split; [reflexivity |]. split; [exact (Hpost eq_refl eq_refl) | exact Hcalls].
Defined.

(** A request without a message is not always answered 400: a POST whose
    body is [null] is answered 500, and a GET is answered 405. *)
Example missing_message_is_not_always_400 :
  let run := chat_handler literal_text no_sign (fun _ => Text "hi")
               "2024-01-01T00:00:00.000Z" in
  let no_members := {| method := "POST"; body := Some JNull |} in
  let not_a_post := {| method := "GET"; body := Some (JObject []) |} in
  get (members no_members) "message" = None
  /\ status_of (run no_members) = Some 500
  /\ field (run no_members) "details"
     = Some (JString "Cannot destructure property 'message' of 'req.body' as it is null.")
  /\ get (members not_a_post) "message" = None
  /\ status_of (run not_a_post) = Some 405.
Proof.
  cbv zeta. repeat split; reflexivity.
Qed.



(** The provider throws [quota exceeded]; the details of the 500 body do not
    hold that text. *)
Example provider_message_stays_behind :
  let r := chat_handler literal_text no_sign (fun _ => Fails "quota exceeded")
             "2024-01-01T00:00:00.000Z" (post [("message", JString "hello")]) in
  status_of r = Some 500
  /\ field r "error" = Some (JString "Failed to process chat message")
  /\ field r "details" = Some (JString "Failed to process chat message")
  /\ includes "quota exceeded" "Failed to process chat message" = false.
Proof.
  cbv zeta. repeat split; reflexivity.
Qed.

(** Under the mode [code] the details are the fixed message of
    [generateCode]; the message of the provider is in the log. *)
Example provider_failure_is_masked_witness :
  let r := chat_handler literal_text no_sign (fun _ => Fails "quota exceeded")
             "2024-01-01T00:00:00.000Z"
             (post [("message", JString "sum two numbers"); ("mode", JString "code")]) in
  status_of r = Some 500
  /\ field r "details" = Some (JString "Failed to generate code")
  /\ In (ConsoleError "Code generation error:" (ProviderError "quota exceeded")) (trace r).
Proof.
  intros r.
  set (req := post [("message", JString "sum two numbers"); ("mode", JString "code")]).
  set (p := generateCode_prompt "javascript" "sum two numbers"
              ["Clean, readable code"; "Error handling"; "Best practices"]).
  assert (Hcall : In (ProviderCall p)
                     (trace (chat_handler literal_text no_sign
                               (fun _ => Fails "quota exceeded")
                               "2024-01-01T00:00:00.000Z" req)))
    by (left; reflexivity).
  pose proof (provider_failure_is_masked literal_text no_sign
                (fun _ => Fails "quota exceeded") "2024-01-01T00:00:00.000Z"
                req p "quota exceeded" Hcall eq_refl) as [Hsent Htrace].
  unfold status_of, field. subst r. fold req. rewrite Hsent, Htrace.
  split; [reflexivity |]. split; [reflexivity |]. right. left. reflexivity.
Defined.

(** Under the mode [code] the history does not matter, and the prompt names
    [javascript] and the three fixed requirements. *)
Example auxiliary_parameters_are_hard_coded_witness :
  let req := post [ ("message", JString "sum two numbers"); ("mode", JString "code")
                  ; ("conversationHistory", JArray [turn ("user", "earlier")]) ] in
  let run := chat_handler literal_text no_sign (fun _ => Text "hi")
               "2024-01-01T00:00:00.000Z" in
  run (with_member req "conversationHistory" JNull) = run req
  /\ provider_calls (trace (run req))
     = [generateCode_prompt "javascript" "sum two numbers"
          ["Clean, readable code"; "Error handling"; "Best practices"]].
Proof.
  intros req run.
  assert (Hin : In "code" ["code"; "java"; "firebase"; "analyze"]) by (left; reflexivity).
  pose proof (auxiliary_parameters_are_hard_coded literal_text no_sign (fun _ => Text "hi")
                "2024-01-01T00:00:00.000Z" req "code" eq_refl Hin)
    as (_ & Hhistory & Hprompt).
  split; [apply Hhistory |].
  apply (Hprompt "sum two numbers" eq_refl eq_refl eq_refl). reflexivity.
Defined.

(** A response whose brace span is [{oops}] is answered 500. *)
Example unparsable_span_is_escalated_witness :
  let text := "Here is the plan: {oops}" in
  let req := post [("prompt", JString "a todo app")] in
  match_braces text = Some "{oops}"
  /\ JSON_parse "{oops}" = None
  /\ sent (project_builder_handler literal_text (fun _ => Text text)
             "2024-01-01T00:00:00.000Z" req)
     = Some {| status := 500;
               payload := [ ("error", JString "Failed to generate project plan")
                          ; ("details", JString "Failed to generate project plan") ] |}.
Proof.
  intros text req.
  split; [reflexivity |]. split; [reflexivity |].
  exact (proj2 (unparsable_span_is_escalated literal_text (fun _ => Text text)
                  "2024-01-01T00:00:00.000Z" req
                  (generateProjectPlan_prompt "web" "{}" "" "a todo app")
                  text "{oops}" eq_refl eq_refl eq_refl eq_refl eq_refl eq_refl)).
Defined.

(** A response with the one key [summary] is returned as it is. *)
Example plan_with_other_keys :
  let text := "Sure! {" ++ dq ++ "summary" ++ dq ++ ": " ++ dq ++ "a shop" ++ dq ++ "}" in
  let plan := JObject [("summary", JString "a shop")] in
  result (generateProjectPlan literal_text (fun _ => Text text)
            (Some (JString "a shop")) None None None)
  = Returns plan
  /\ keys_of plan = ["summary"]
  /\ keys_of plan <> plan_keys.
Proof.
  cbv zeta. repeat split; try reflexivity. discriminate.
Qed.

(** The returned plan is what [JSON.parse] makes of the span. *)
Example returned_plan_is_the_parsed_span_witness :
  let text := "Sure! {" ++ dq ++ "summary" ++ dq ++ ": " ++ dq ++ "a shop" ++ dq ++ "}" in
  let plan := JObject [("summary", JString "a shop")] in
  exists p span,
    plan_prompt literal_text (Some (JString "a shop")) None None None = Returns p
    /\ match_braces text = Some span
    /\ JSON_parse span = Some plan.
Proof.
  intros text plan.
  destruct (returned_plan_is_the_parsed_span literal_text (fun _ => Text text)
              (Some (JString "a shop")) None None None plan eq_refl)
    as (p & text' & Hp & Htext & Hplan).
  injection Htext as <-.
  exists p, (String open_brace (dq ++ "summary" ++ dq ++ ": " ++ dq ++ "a shop" ++ dq ++ "}")).
  split; [exact Hp |]. split; [reflexivity |].
  exact (proj1 Hplan).
Defined.

(** With [requirements: null] the prompt cannot be assembled: the answer is
    500 although the provider was not even called.  With a body that is
    [null] nothing is handed to [generateProjectPlan] at all. *)
Example null_requirements_are_answered_500 :
  let run := project_builder_handler literal_text (fun _ => Text "no plan")
               "2024-01-01T00:00:00.000Z" in
  let answer := run (post [("prompt", JString "a todo app"); ("requirements", JNull)]) in
  let refused := run {| method := "POST"; body := Some JNull |} in
  sent answer
  = Some {| status := 500;
            payload :=
              [ ("error", JString "Failed to generate project plan")
              ; ("details", JString "Cannot read properties of null (reading 'join')") ] |}
  /\ provider_calls (trace answer) = []
  /\ sent refused
     = Some {| status := 500;
               payload :=
                 [ ("error", JString "Failed to generate project plan")
                 ; ("details",
                    JString "Cannot destructure property 'prompt' of 'req.body' as it is null.") ] |}
  /\ trace refused
     = [ConsoleError "Project Builder Error:"
          (TypeError "Cannot destructure property 'prompt' of 'req.body' as it is null.")].
Proof.
  cbv zeta. repeat split; reflexivity.
Qed.

(** An empty body is answered 200: every member takes its default, and the
    prompt shows the missing [prompt] as [undefined]. *)
Example project_builder_validates_nothing_witness :
  let answer := project_builder_handler literal_text (fun _ => Text "no plan")
                  "2024-01-01T00:00:00.000Z" (post []) in
  status_of answer = Some 200
  /\ provider_calls (trace answer) = [generateProjectPlan_prompt "web" "{}" "" "undefined"]
  /\ field answer "projectPlan" = Some (unparsed_plan "no plan").
Proof.
  intros answer.
  pose proof (project_builder_validates_nothing literal_text (fun _ => Text "no plan")
                "2024-01-01T00:00:00.000Z" (post []) eq_refl)
    as (_ & Hobject & _ & _).
  destruct (Hobject eq_refl) as (_ & _ & _ & _ & Hok & _).
  destruct (Hok (generateProjectPlan_prompt "web" "{}" "" "undefined") "no plan"
              eq_refl eq_refl I) as [Hstatus Hcalls].
  split; [exact Hstatus |]. split; [exact Hcalls |]. reflexivity.
Defined.


(** * Further properties *)

(** ** Strings *)

Lemma append_empty_r (s : string) : s ++ "" = s.
Proof. induction s as [| c s IH]; cbn; [| rewrite IH]; reflexivity. Qed.

Lemma append_associative (a b c : string) : (a ++ b) ++ c = a ++ b ++ c.
Proof. induction a as [| x a IH]; cbn; [| rewrite IH]; reflexivity. Qed.

(** ** The span that [generateProjectPlan] cuts out of a response *)

Lemma after_first_open_found s rest :
  after_first_open s = Some rest ->
  exists pre, s = pre ++ String open_brace rest /\ occurs open_brace pre = false.
Proof.
  revert rest. induction s as [| c s IH]; intros rest H;
    cbn [after_first_open] in H; [discriminate H |].
  destruct (Ascii.eqb_spec c open_brace) as [-> | Hc].
  - inversion H; subst. exists "". split; reflexivity.
  - destruct (IH rest H) as (pre & -> & Hpre).
    exists (String c pre). split; [reflexivity |].
    cbn [occurs]. rewrite Hpre. apply Ascii.eqb_neq in Hc. rewrite Hc. reflexivity.
Qed.

Lemma after_first_open_skips pre rest :
  occurs open_brace pre = false ->
  after_first_open (pre ++ String open_brace rest) = Some rest.
Proof.
  induction pre as [| c pre IH]; cbn [occurs append after_first_open]; intros H.
  - rewrite Ascii.eqb_refl. reflexivity.
  - apply orb_false_elim in H. destruct H as [Hc Hpre].
    rewrite Hc. apply IH, Hpre.
Qed.

Lemma through_last_close_found s p :
  through_last_close s = Some p ->
  exists mid post,
    p = mid ++ String close_brace "" /\ s = p ++ post /\ occurs close_brace post = false.
Proof.
  revert p. induction s as [| c s IH]; intros p H;
    cbn [through_last_close] in H; [discriminate H |].
  destruct (through_last_close s) as [q |] eqn:Hs.
  - inversion H; subst. destruct (IH q eq_refl) as (mid & post & -> & -> & Hpost).
    exists (String c mid), post. repeat split. exact Hpost.
  - destruct (Ascii.eqb_spec c close_brace) as [-> | Hc]; [| discriminate H].
    inversion H; subst. exists "", s. repeat split.
    clear -Hs. induction s as [| c s IH]; [reflexivity |].
    cbn [through_last_close occurs] in Hs |- *.
    destruct (through_last_close s); [discriminate Hs |].
    destruct (c =? close_brace)%char; [discriminate Hs |]. apply IH. reflexivity.
Qed.

Lemma through_last_close_none post :
  occurs close_brace post = false -> through_last_close post = None.
Proof.
  induction post as [| c post IH]; cbn [occurs through_last_close]; intros H;
    [reflexivity |].
  apply orb_false_elim in H. destruct H as [Hc Hpost].
  rewrite (IH Hpost), Hc. reflexivity.
Qed.

Lemma through_last_close_keeps mid post :
  occurs close_brace post = false ->
  through_last_close (mid ++ String close_brace post) = Some (mid ++ String close_brace "").
Proof.
  intros Hpost. induction mid as [| c mid IH]; cbn [append through_last_close].
  - rewrite (through_last_close_none post Hpost), Ascii.eqb_refl. reflexivity.
  - rewrite IH. reflexivity.
Qed.

Lemma match_braces_of_parts pre mid post :
  occurs open_brace pre = false ->
  occurs close_brace post = false ->
  match_braces (pre ++ braced mid ++ post) = Some (braced mid).
Proof.
  intros Hpre Hpost. unfold match_braces, braced. cbn [append].
  rewrite (after_first_open_skips pre _ Hpre).
  rewrite append_associative. cbn [append].
  rewrite (through_last_close_keeps mid post Hpost). reflexivity.
Qed.

(** X1: the text that [generateProjectPlan] hands to [JSON.parse] is the
    part of the response from its first opening brace to its last closing
    brace: [match_braces] gives [span] exactly when the response is
    [pre ++ span ++ post] where [span] starts and ends with a brace, [pre]
    holds no opening brace and [post] no closing brace. *)
Theorem match_braces_is_the_widest_span text span :
  match_braces text = Some span
  <-> exists pre mid post,
        text = pre ++ span ++ post
        /\ span = braced mid
        /\ occurs open_brace pre = false
        /\ occurs close_brace post = false.
Proof.
  split.
  - unfold match_braces, braced. intros H.
    destruct (after_first_open text) as [rest |] eqn:Hopen; [| discriminate H].
    destruct (through_last_close rest) as [p |] eqn:Hclose; [| discriminate H].
    inversion H; subst span.
    destruct (after_first_open_found text rest Hopen) as (pre & -> & Hpre).
    destruct (through_last_close_found rest p Hclose) as (mid & post & -> & -> & Hpost).
    exists pre, mid, post. repeat split; assumption.
  - intros (pre & mid & post & -> & -> & Hpre & Hpost).
    exact (match_braces_of_parts pre mid post Hpre Hpost).
Qed.

Lemma after_first_open_reaches a t :
  exists u, after_first_open (a ++ String open_brace t) = Some (u ++ t).
Proof.
  induction a as [| c a IH]; cbn [append after_first_open].
  - rewrite Ascii.eqb_refl. exists "". reflexivity.
  - destruct (c =? open_brace)%char; [| exact IH].
    exists (a ++ String open_brace ""). rewrite append_associative. reflexivity.
Qed.

Lemma through_last_close_reaches x y :
  through_last_close (x ++ String close_brace y) <> None.
Proof.
  induction x as [| c x IH]; cbn [append through_last_close].
  - destruct (through_last_close y); [discriminate |].
    rewrite Ascii.eqb_refl. discriminate.
  - destruct (through_last_close (x ++ String close_brace y)); [discriminate | contradiction].
Qed.

(** X2: the fallback of [generateProjectPlan] (the raw text under
    [analysis]) is taken exactly when no opening brace of the response has a
    closing brace after it; a response that holds the two in this order
    always goes to [JSON.parse]. *)
Theorem match_braces_finds_any_pair text :
  match_braces text <> None
  <-> exists a b c, text = a ++ String open_brace (b ++ String close_brace c).
Proof.
  split.
  - intros H. destruct (match_braces text) as [span |] eqn:Hspan; [| contradiction].
    apply match_braces_is_the_widest_span in Hspan.
    destruct Hspan as (pre & mid & post & -> & -> & _ & _).
    exists pre, mid, post. unfold braced. cbn [append].
    rewrite append_associative. reflexivity.
  - intros (a & b & c & ->). unfold match_braces.
    destruct (after_first_open_reaches a (b ++ String close_brace c)) as [u ->].
    rewrite <- append_associative.
    destruct (through_last_close ((u ++ b) ++ String close_brace c)) eqn:H;
      [discriminate |].
    exfalso. exact (through_last_close_reaches _ _ H).
Qed.

(** ** [JSON.parse] on a text that goes on after a complete value *)

Lemma lex_by_run s : forall st,
  Json.lex st s
  = match lex_run st s with
    | Some (st', ts) =>
        match Json.lex_end st' with
        | Some last => Some (ts ++ last)%list
        | None => None
        end
    | None => None
    end.
Proof.
  induction s as [| c s IH]; intros st; cbn [Json.lex lex_run].
  - destruct (Json.lex_end st); reflexivity.
  - destruct (Json.lex_step st c) as [[st' toks] |]; [| reflexivity].
    rewrite IH. destruct (lex_run st' s) as [[st'' more] |]; [| reflexivity].
    destruct (Json.lex_end st''); [| reflexivity].
    rewrite app_assoc. reflexivity.
Qed.

Lemma lex_run_app a b : forall st,
  lex_run st (a ++ b)
  = match lex_run st a with
    | Some (st', ts) =>
        match lex_run st' b with
        | Some (st'', more) => Some (st'', (ts ++ more)%list)
        | None => None
        end
    | None => None
    end.
Proof.
  induction a as [| c a IH]; intros st; cbn [append lex_run].
  - destruct (lex_run st b) as [[st'' more] |]; reflexivity.
  - destruct (Json.lex_step st c) as [[st' toks] |]; [| reflexivity].
    rewrite IH. destruct (lex_run st' a) as [[st1 ts] |]; [| reflexivity].
    destruct (lex_run st1 b) as [[st2 more] |]; [| reflexivity].
    rewrite app_assoc. reflexivity.
Qed.

(** After a closing brace the lexer is between two tokens and has written
    one, or it is inside a token that the end of the text would cut. *)
Lemma lex_step_close_brace st st' toks :
  Json.lex_step st close_brace = Some (st', toks) ->
  (st' = Json.LStart /\ toks <> []) \/ Json.lex_end st' = None.
Proof.
  destruct st as [| acc | acc | acc seen value | acc ns | rest tok];
    cbn [Json.lex_step].
  - intros H. inversion H; subst. left. split; [reflexivity | discriminate].
  - intros H. inversion H; subst. right. reflexivity.
  - discriminate.
  - discriminate.
  - destruct ns; cbn; intros H; inversion H; subst;
      left; (split; [reflexivity | discriminate]).
  - destruct rest as [| c' rest']; [discriminate |].
    destruct (close_brace =? c')%char; [| discriminate].
    destruct (rest' =? ""); intros H; inversion H; subst.
    + left. split; [reflexivity | discriminate].
    + right. reflexivity.
Qed.

Lemma lex_run_to_close_brace s st st' ts :
  lex_run st (s ++ String close_brace "") = Some (st', ts) ->
  (st' = Json.LStart /\ ts <> []) \/ Json.lex_end st' = None.
Proof.
  rewrite lex_run_app. destruct (lex_run st s) as [[st1 ts1] |]; [| discriminate].
  cbn [lex_run].
  destruct (Json.lex_step st1 close_brace) as [[st2 toks] |] eqn:Hstep; [| discriminate].
  intros H. inversion H; subst.
  destruct (lex_step_close_brace st1 st' toks Hstep) as [[-> Htoks] | Hend].
  - left. split; [reflexivity |].
    rewrite app_nil_r. destruct toks; [contradiction |].
    destruct ts1; discriminate.
  - right. exact Hend.
Qed.

Lemma parse_tokens_stops ts : forall st stack v t more,
  Json.parse_tokens st stack ts = Some v ->
  Json.parse_tokens st stack (ts ++ t :: more) = None.
Proof.
  induction ts as [| t0 ts IH]; intros st stack v t more H;
    cbn [app Json.parse_tokens] in H |- *.
  - destruct st; try discriminate H. reflexivity.
  - destruct (Json.parse_step st stack t0) as [[st' stack'] |]; [| discriminate H].
    exact (IH st' stack' v t more H).
Qed.

(** [JSON.parse] refuses a complete value that ends with a brace and is
    followed by more text up to another closing brace. *)
Lemma parse_refuses_trailing_text x y v :
  JSON_parse (x ++ String close_brace "") = Some v ->
  JSON_parse ((x ++ String close_brace "") ++ y ++ String close_brace "") = None.
Proof.
  unfold JSON_parse, Json.parse. rewrite !lex_by_run.
  rewrite (lex_run_app (x ++ String close_brace "") (y ++ String close_brace "")).
  destruct (lex_run Json.LStart (x ++ String close_brace "")) as [[st1 ts1] |] eqn:Hrun;
    cbv beta iota; [| intros H; discriminate H].
  destruct (lex_run_to_close_brace x Json.LStart st1 ts1 Hrun) as [[-> _] | Hend].
  2: { rewrite Hend. intros H; discriminate H. }
  cbn [Json.lex_end]. rewrite app_nil_r. intros Hparse.
  destruct (lex_run Json.LStart (y ++ String close_brace "")) as [[st2 ts2] |] eqn:Hrun2;
    cbv beta iota; [| reflexivity].
  destruct (lex_run_to_close_brace y Json.LStart st2 ts2 Hrun2) as [[-> Hts2] | Hend].
  2: { rewrite Hend. reflexivity. }
  cbn [Json.lex_end]. rewrite app_nil_r.
  destruct ts2 as [| t more]; [contradiction |].
  exact (parse_tokens_stops ts1 _ _ v t more Hparse).
Qed.

Lemma occurs_close_brace_splits post :
  occurs close_brace post = true ->
  exists y rest,
    post = (y ++ String close_brace "") ++ rest /\ occurs close_brace rest = false.
Proof.
  intros H. destruct (through_last_close post) as [p |] eqn:Hp.
  - destruct (through_last_close_found post p Hp) as (y & rest & -> & -> & Hrest).
    exists y, rest. split; [reflexivity | exact Hrest].
  - exfalso. clear -H Hp. induction post as [| c post IH]; [discriminate H |].
    cbn [occurs through_last_close] in H, Hp.
    destruct (through_last_close post); [discriminate Hp |].
    destruct (c =? close_brace)%char; [discriminate Hp |].
    apply IH; [exact H | reflexivity].
Qed.

Section Extraction.
Variable Number_toString : string -> string.
Variable model : provider.

Let builder := project_builder_handler Number_toString model.
Let prompt_for (req : request) : outcome string :=
  plan_prompt Number_toString (get (members req) "prompt") (get (members req) "projectType")
    (get (members req) "requirements") (get (members req) "buildContext").

(** X3: a JSON object that the provider wraps in prose is recovered as long
    as the prose before it holds no opening brace and the prose after it no
    closing brace: [/project-builder] then answers 200 with the parsed
    object as [projectPlan]. *)
Theorem plan_inside_prose_is_recovered now req p pre mid post plan :
  method req = "POST" ->
  nullish (body req) = false ->
  prompt_for req = Returns p ->
  model p = Text (pre ++ braced mid ++ post) ->
  occurs open_brace pre = false ->
  occurs close_brace post = false ->
  JSON_parse (braced mid) = Some plan ->
  sent (builder now req)
  = Some {| status := 200;
            payload := [ ("success", JBool true)
                       ; ("projectPlan", plan)
                       ; ("timestamp", JString now) ] |}.
Proof.
  intros Hm Hb Hp Htext Hpre Hpost Hparse. unfold builder, prompt_for in *.
  rewrite (handle_project_builder_post Number_toString model now req Hm Hb).
  rewrite plan_of_cases, Hp, Htext.
  rewrite (match_braces_of_parts pre mid post Hpre Hpost), Hparse. reflexivity.
Qed.

(** X4: prose with a closing brace after a complete JSON object breaks the
    extraction: the span then runs on to that brace, [JSON.parse] refuses
    it, and [/project-builder] answers 500 although the response held a
    valid plan. *)
Theorem brace_after_the_plan_loses_it now req p pre mid post plan :
  method req = "POST" ->
  nullish (body req) = false ->
  prompt_for req = Returns p ->
  model p = Text (pre ++ braced mid ++ post) ->
  occurs open_brace pre = false ->
  occurs close_brace post = true ->
  JSON_parse (braced mid) = Some plan ->
  sent (builder now req)
  = Some {| status := 500;
            payload := [ ("error", JString "Failed to generate project plan")
                       ; ("details", JString "Failed to generate project plan") ] |}.
Proof.
  intros Hm Hb Hp Htext Hpre Hpost Hparse. unfold builder, prompt_for in *.
  destruct (occurs_close_brace_splits post Hpost) as (y & rest & -> & Hrest).
  assert (Hspan : pre ++ braced mid ++ (y ++ String close_brace "") ++ rest
                  = pre ++ braced (mid ++ String close_brace y) ++ rest).
  { f_equal. unfold braced. cbn [append]. f_equal.
    rewrite !append_associative. cbn [append]. reflexivity. }
  assert (Hbad : JSON_parse (braced (mid ++ String close_brace y)) = None).
  { assert (E : braced (mid ++ String close_brace y)
                = (String open_brace mid ++ String close_brace "")
                    ++ y ++ String close_brace "").
    { unfold braced. cbn [append]. f_equal.
      rewrite !append_associative. cbn [append]. reflexivity. }
    rewrite E. apply (parse_refuses_trailing_text (String open_brace mid) y plan).
    exact Hparse. }
  rewrite (handle_project_builder_post Number_toString model now req Hm Hb).
  rewrite plan_of_cases, Hp, Htext, Hspan.
  rewrite (match_braces_of_parts pre _ rest Hpre Hrest), Hbad. reflexivity.
Qed.

End Extraction.

(** ** The answers of [/api/gemini/chat] *)

Section ChatEndpoint.
Variable Number_toString : string -> string.
Variable StringToNumber_sign : string -> option comparison.
Variable model : provider.

Let serve_chat := chat_handler Number_toString StringToNumber_sign model.
Let serve_builder := project_builder_handler Number_toString model.

(** The prompt that the request asks for, whatever its method. *)
Let prompt_asked (req : request) : outcome string :=
  prompt_of Number_toString StringToNumber_sign
    (default (get (members req) "mode") (JString "chat"))
    (get (members req) "message")
    (Some (default (get (members req) "conversationHistory") (JArray []))).

(** The request is a POST whose body can be destructured. *)
Let readable (req : request) : bool :=
  ((method req =? "POST") && negb (nullish (body req)))%bool.

(** The request passes the two guards of the chat handler. *)
Let accepted (req : request) : bool :=
  (readable req && truthy StringToNumber_sign (get (members req) "message"))%bool.

(** X5: the chat handler does not throw: for a call of the provider that
    settles it ends with an answer, whose status tells what happened.  405
    exactly for a method other than POST; 400 exactly for a POST whose body
    can be destructured and whose message is falsy; 200 exactly when the
    request passed both guards, the prompt could be assembled and the
    provider returned a text; 500 exactly for a POST whose body is [null] or
    [undefined], and for a request that passed both guards when the assembly
    threw or the provider failed. *)
Theorem chat_status_table now req :
  (exists resp, sent (serve_chat now req) = Some resp)
  /\ (status_of (serve_chat now req) = Some 405 <-> method req <> "POST")
  /\ (status_of (serve_chat now req) = Some 400
      <-> method req = "POST" /\ nullish (body req) = false
          /\ truthy StringToNumber_sign (get (members req) "message") = false)
  /\ (status_of (serve_chat now req) = Some 200
      <-> accepted req = true
          /\ exists p text, prompt_asked req = Returns p /\ model p = Text text)
  /\ (status_of (serve_chat now req) = Some 500
      <-> (method req = "POST" /\ nullish (body req) = true)
          \/ (accepted req = true
              /\ ((exists e, prompt_asked req = Throws e)
                  \/ exists p m, prompt_asked req = Returns p /\ model p = Fails m))).
Proof.
  unfold accepted, readable, prompt_asked, serve_chat.
  destruct (String.eqb_spec (method req) "POST") as [Hm | Hm].
  2: { rewrite (handle_chat_not_post _ _ _ now req Hm). cbn [andb].
       split; [eexists; reflexivity |].
       split; [split; intros H; [exact Hm | reflexivity] |].
       split; [split; intros H; [discriminate H | destruct H as [H _]; contradiction] |].
       split; [split; intros H; [discriminate H | destruct H as [H _]; discriminate H] |].
       split; intros H; [discriminate H |].
       destruct H as [[H _] | [H _]]; [contradiction | discriminate H]. }
  destruct (nullish (body req)) eqn:Hb.
  1: { rewrite (handle_chat_nullish _ _ _ now req Hm Hb). cbn [andb negb].
       split; [eexists; reflexivity |].
       split; [split; intros H; [discriminate H | contradiction] |].
       split; [split; intros H; [discriminate H | destruct H as (_ & H & _); discriminate H] |].
       split; [split; intros H; [discriminate H | destruct H as [H _]; discriminate H] |].
       split; intros H; [left; split; [exact Hm | reflexivity] | reflexivity]. }
  destruct (truthy StringToNumber_sign (get (members req) "message")) eqn:Ht.
  2: { rewrite (handle_chat_falsy _ _ _ now req Hm Hb Ht). cbn [andb negb].
       split; [eexists; reflexivity |].
       split; [split; intros H; [discriminate H | contradiction] |].
       split; [split; intros H; [repeat split; assumption | reflexivity] |].
       split; [split; intros H; [discriminate H | destruct H as [H _]; discriminate H] |].
       split; intros H; [discriminate H |].
       destruct H as [[_ H] | [H _]]; discriminate H. }
  rewrite (handle_chat_cases _ _ _ now req Hm Hb Ht). cbn [andb negb].
  destruct (prompt_of _ _ _ _ _) as [p | e].
  2: { split; [eexists; reflexivity |].
       split; [split; intros H; [discriminate H | contradiction] |].
       split; [split; intros H; [discriminate H | destruct H as (_ & _ & H); discriminate H] |].
       split; split; intros H.
       - discriminate H.
       - destruct H as (_ & p & text & H & _). discriminate H.
       - right. split; [reflexivity |]. left. eexists; reflexivity.
       - reflexivity. }
  destruct (model p) as [text | m] eqn:Hp.
  - split; [eexists; reflexivity |].
    split; [split; intros H; [discriminate H | contradiction] |].
    split; [split; intros H; [discriminate H | destruct H as (_ & _ & H); discriminate H] |].
    split; split; intros H.
    + split; [reflexivity |]. exists p, text. split; [reflexivity | exact Hp].
    + reflexivity.
    + discriminate H.
    + destruct H as [[_ H] | (_ & [[e H] | (p' & m & H & Hfail)])];
        [discriminate H | discriminate H |].
      injection H as <-. congruence.
  - split; [eexists; reflexivity |].
    split; [split; intros H; [discriminate H | contradiction] |].
    split; [split; intros H; [discriminate H | destruct H as (_ & _ & H); discriminate H] |].
    split; split; intros H.
    + discriminate H.
    + destruct H as (_ & p' & text & H & Htext). injection H as <-. congruence.
    + right. split; [reflexivity |]. right. exists p, m. split; [reflexivity | exact Hp].
    + reflexivity.
Qed.

Lemma builder_traffic now req :
  provider_calls (trace (serve_builder now req))
  = (if ((method req =? "POST") && negb (nullish (body req)))%bool
     then match plan_prompt Number_toString (get (members req) "prompt")
                  (get (members req) "projectType") (get (members req) "requirements")
                  (get (members req) "buildContext") with
          | Returns p => [p]
          | Throws _ => []
          end
     else []).
Proof.
  unfold serve_builder.
  destruct (String.eqb_spec (method req) "POST") as [Hm | Hm].
  2: { rewrite (handle_project_builder_not_post _ _ now req Hm). reflexivity. }
  destruct (nullish (body req)) eqn:Hb.
  1: { rewrite (handle_project_builder_nullish _ _ now req Hm Hb). reflexivity. }
  rewrite (handle_project_builder_post _ _ now req Hm Hb), plan_of_cases.
  cbn [andb negb].
  destruct (plan_prompt _ _ _ _ _) as [p | e]; [| reflexivity].
  destruct (model p) as [text | m]; [| reflexivity].
  destruct (match_braces text) as [span |]; [| reflexivity].
  destruct (JSON_parse span); reflexivity.
Qed.

(** X6: a request costs at most one call of the provider, and none before
    it is validated: [/chat] calls the provider exactly when the method is
    POST, the body can be destructured, the message is truthy and the prompt
    could be assembled, and [/project-builder] exactly when the method is
    POST, the body can be destructured and the prompt could be assembled; a
    failure of the provider is not retried. *)
Theorem provider_is_called_once_at_most now req :
  provider_calls (trace (serve_chat now req))
  = (if accepted req
     then match prompt_asked req with
          | Returns p => [p]
          | Throws _ => []
          end
     else [])
  /\ provider_calls (trace (serve_builder now req))
     = (if readable req
        then match plan_prompt Number_toString (get (members req) "prompt")
                     (get (members req) "projectType") (get (members req) "requirements")
                     (get (members req) "buildContext") with
             | Returns p => [p]
             | Throws _ => []
             end
        else []).
Proof.
  unfold accepted, readable, prompt_asked, serve_chat, serve_builder. split.
  - destruct (String.eqb_spec (method req) "POST") as [Hm | Hm].
    2: { rewrite (handle_chat_not_post _ _ _ now req Hm). reflexivity. }
    destruct (nullish (body req)) eqn:Hb.
    1: { rewrite (handle_chat_nullish _ _ _ now req Hm Hb). reflexivity. }
    destruct (truthy StringToNumber_sign (get (members req) "message")) eqn:Ht.
    2: { rewrite (handle_chat_falsy _ _ _ now req Hm Hb Ht). reflexivity. }
    rewrite (handle_chat_cases _ _ _ now req Hm Hb Ht). cbn [andb negb].
    destruct (prompt_of _ _ _ _ _) as [p | e]; [| reflexivity].
    destruct (model p); reflexivity.
  - apply builder_traffic.
Qed.

End ChatEndpoint.

(** ** What the assembly of a prompt can throw *)

(** Induction on a JSON value, with the elements of an array and the
    values of an object. *)
Lemma json_induction (P : json -> Prop) :
  P JNull ->
  (forall b, P (JBool b)) ->
  (forall lit, P (JNumber lit)) ->
  (forall s, P (JString s)) ->
  (forall xs, Forall P xs -> P (JArray xs)) ->
  (forall ps, Forall (fun p => P (snd p)) ps -> P (JObject ps)) ->
  forall v, P v.
Proof.
  intros Hnull Hbool Hnumber Hstring Harray Hobject.
  fix IH 1. intros [| b | lit | s | xs | ps].
  - exact Hnull.
  - apply Hbool.
  - apply Hnumber.
  - apply Hstring.
  - apply Harray. induction xs as [| x xs IHxs]; constructor; [apply IH | exact IHxs].
  - apply Hobject. induction ps as [| [k x] ps IHps]; constructor; [apply IH | exact IHps].
Qed.

Lemma all_of_only_type_errors {A B} (f : A -> outcome B) xs :
  Forall (fun x => only_type_errors (f x)) xs -> only_type_errors (all_of f xs).
Proof.
  induction 1 as [| x xs Hx _ IH]; cbn [all_of and_then only_type_errors]; [exact I |].
  destruct (f x) as [y | e]; cbn [and_then]; [| exact Hx].
  destruct (all_of f xs) as [ys | e]; cbn [and_then]; [exact I | exact IH].
Qed.

Lemma and_then_only_type_errors {A B} (o : outcome A) (k : A -> outcome B) :
  only_type_errors o ->
  (forall a, only_type_errors (k a)) ->
  only_type_errors (and_then o k).
Proof.
  intros Ho Hk. destruct o as [a | e]; cbn [and_then]; [apply Hk | exact Ho].
Qed.

Section Conversions.
Variable Number_toString : string -> string.
Variable StringToNumber_sign : string -> option comparison.

Lemma ToString_only_type_errors v : only_type_errors (ToString Number_toString v).
Proof.
  induction v as [| b | lit | s | xs IH | ps _] using json_induction;
    cbn [ToString]; try exact I.
  - apply and_then_only_type_errors; [| intros; exact I].
    apply all_of_only_type_errors.
    induction IH as [| x xs Hx _ IHxs]; constructor; [| exact IHxs].
    destruct x; first [exact I | exact Hx].
  - destruct (has_own ps "toString"); exact I.
Qed.

Lemma to_string_only_type_errors v : only_type_errors (to_string Number_toString v).
Proof. destruct v as [j |]; [apply ToString_only_type_errors | exact I]. Qed.

Lemma member_only_type_errors v key : only_type_errors (member v key).
Proof. destruct v; exact I. Qed.

Lemma render_turn_only_type_errors msg :
  only_type_errors (render_turn Number_toString msg).
Proof.
  unfold render_turn.
  repeat (apply and_then_only_type_errors;
          [first [apply member_only_type_errors | apply to_string_only_type_errors]
          | intros ?]).
  exact I.
Qed.

Lemma chat_prompt_only_type_errors message history :
  only_type_errors (chat_prompt Number_toString StringToNumber_sign message history).
Proof.
  unfold chat_prompt.
  apply and_then_only_type_errors.
  { destruct history as [| b | lit | s | xs | ps]; try exact I.
    cbn [length_positive]. destruct (get ps "length") as [[| b | lit | s | xs | qs] |];
      cbn [greater_than_zero]; try exact I;
      (apply and_then_only_type_errors;
       [apply ToString_only_type_errors | intros; exact I]). }
  intros nonempty. apply and_then_only_type_errors.
  { destruct nonempty; [| exact I].
    apply and_then_only_type_errors; [| intros; exact I].
    destruct history as [| b | lit | s | xs | ps]; try exact I.
    cbn [map_turns]. apply all_of_only_type_errors.
    apply Forall_forall. intros msg _. apply render_turn_only_type_errors. }
  intros context. apply and_then_only_type_errors;
    [apply to_string_only_type_errors | intros; exact I].
Qed.

Lemma prompt_of_only_type_errors mode message history :
  only_type_errors (prompt_of Number_toString StringToNumber_sign mode message history).
Proof.
  unfold prompt_of.
  repeat match goal with
         | |- context [if ?b then _ else _] => destruct b
         end;
    try apply chat_prompt_only_type_errors;
    (apply and_then_only_type_errors;
     [apply to_string_only_type_errors | intros; exact I]).
Qed.

End Conversions.

(** ** Errors and odd histories at [/api/gemini/chat] *)

Section ChatErrors.
Variable Number_toString : string -> string.
Variable StringToNumber_sign : string -> option comparison.
Variable model : provider.

Let answer_chat := chat_handler Number_toString StringToNumber_sign model.
Let assemble := chat_prompt Number_toString StringToNumber_sign.

(** A truthy member is a member of an object. *)
Lemma truthy_member_of_object req key :
  truthy StringToNumber_sign (get (members req) key) = true -> nullish (body req) = false.
Proof.
  destruct (get (members req) key) as [v |] eqn:E; [| discriminate].
  intros _. exact (member_of_object req key v E).
Qed.

(** X7: the [details] of a 500 from [/chat] are one of three things: the
    fixed message of the operation, when its call of the provider failed;
    the message of a [TypeError] that the assembly of the prompt raised on
    an ill-typed member; or the message of the [TypeError] that destructuring
    a body that is [null] or [undefined] raised.  In the last two cases the
    provider was not called. *)
Theorem chat_error_details now req :
  status_of (answer_chat now req) = Some 500 ->
  let mode := default (get (members req) "mode") (JString "chat") in
  let details := field (answer_chat now req) "details" in
  let calls := provider_calls (trace (answer_chat now req)) in
  field (answer_chat now req) "error" = Some (JString "Failed to process chat message")
  /\ ((nullish (body req) = false
       /\ details = Some (JString (failure_of mode))
       /\ exists p m, calls = [p] /\ model p = Fails m)
      \/ (nullish (body req) = false
          /\ exists m,
               prompt_of Number_toString StringToNumber_sign mode
                 (get (members req) "message")
                 (Some (default (get (members req) "conversationHistory") (JArray [])))
               = Throws (TypeError m)
               /\ details = Some (JString m)
               /\ calls = [])
      \/ (nullish (body req) = true
          /\ details = Some (JString (error_message (refusal "message" (body req))))
          /\ (exists m, refusal "message" (body req) = TypeError m)
          /\ calls = [])).
Proof.
  intros H mode details calls. subst details calls. unfold answer_chat in *. revert H.
  destruct (String.eqb_spec (method req) "POST") as [Hm | Hm].
  2: { rewrite (handle_chat_not_post _ _ _ now req Hm). discriminate. }
  destruct (nullish (body req)) eqn:Hb.
  1: { rewrite (handle_chat_nullish _ _ _ now req Hm Hb). intros _.
       split; [reflexivity |]. right. right.
       split; [reflexivity |]. split; [reflexivity |].
       split; [eexists; reflexivity | reflexivity]. }
  destruct (truthy StringToNumber_sign (get (members req) "message")) eqn:Ht.
  2: { rewrite (handle_chat_falsy _ _ _ now req Hm Hb Ht). discriminate. }
  rewrite (handle_chat_cases _ _ _ now req Hm Hb Ht). fold mode.
  pose proof (prompt_of_only_type_errors Number_toString StringToNumber_sign mode
                (get (members req) "message")
                (Some (default (get (members req) "conversationHistory") (JArray []))))
    as Honly.
  destruct (prompt_of _ _ _ _ _) as [p | e].
  - destruct (model p) as [text | m] eqn:Hp; [discriminate |].
    intros _. split; [reflexivity |]. left. split; [reflexivity |].
    split; [reflexivity |]. exists p, m. split; [reflexivity | exact Hp].
  - intros _. split; [reflexivity |]. right. left. split; [reflexivity |].
    destruct e as [m | m | | m]; try contradiction.
    exists m. repeat split.
Qed.

(** X8: the default [[]] of [conversationHistory] replaces a missing member
    only.  Under a mode that runs [chat], a history that is [null], or a
    string that is not empty, makes the assembly throw: the answer is 500
    and the provider is not called; a history that is the empty string, a
    boolean or a number is taken for an empty one. *)
Theorem history_that_is_no_array now req :
  method req = "POST" ->
  truthy StringToNumber_sign (get (members req) "message") = true ->
  runs_chat (default (get (members req) "mode") (JString "chat")) = true ->
  let history := get (members req) "conversationHistory" in
  let failed m := Some {| status := 500;
                          payload := [ ("error", JString "Failed to process chat message")
                                     ; ("details", JString m) ] |} in
  (history = Some JNull ->
   sent (answer_chat now req)
   = failed "Cannot read properties of null (reading 'length')"
   /\ provider_calls (trace (answer_chat now req)) = [])
  /\ (forall s, history = Some (JString s) -> s <> "" ->
      sent (answer_chat now req) = failed "conversationHistory.map is not a function"
      /\ provider_calls (trace (answer_chat now req)) = [])
  /\ (forall m,
        to_string Number_toString (get (members req) "message") = Returns m ->
        history = None \/ history = Some (JString "")
        \/ (exists b, history = Some (JBool b)) \/ (exists lit, history = Some (JNumber lit)) ->
        provider_calls (trace (answer_chat now req)) = ["User: " ++ m]).
Proof.
  intros Hm Ht Hmode history failed. unfold answer_chat in *.
  rewrite (handle_chat_cases _ _ _ now req Hm (truthy_member_of_object req "message" Ht) Ht).
  assert (Hprompt : forall h,
             prompt_of Number_toString StringToNumber_sign
               (default (get (members req) "mode") (JString "chat"))
               (get (members req) "message") (Some h)
             = assemble (get (members req) "message") h).
  { intros h. unfold prompt_of, runs_chat in *.
    destruct (is_mode _ "code"); [discriminate Hmode |].
    destruct (is_mode _ "java"); [discriminate Hmode |].
    destruct (is_mode _ "firebase"); [discriminate Hmode |].
    destruct (is_mode _ "analyze"); [discriminate Hmode |].
    reflexivity. }
  rewrite Hprompt. fold history. unfold assemble, chat_prompt.
  split; [| split].
  - intros ->. split; reflexivity.
  - intros s -> Hs. cbn [default length_positive and_then].
    destruct (String.eqb_spec s "") as [E | _]; [contradiction |].
    split; reflexivity.
  - intros m Hmsg Hh.
    assert (E : length_positive Number_toString StringToNumber_sign
                  (default history (JArray [])) = Returns false).
    { destruct Hh as [-> | [-> | [[b ->] | [lit ->]]]]; reflexivity. }
    rewrite E. cbn [and_then]. rewrite Hmsg. cbn [and_then append].
    destruct (model _); reflexivity.
Qed.

(** X9: a turn of the history is not checked.  An element that is neither
    [null] nor an object, and an object without [role] and [content], are
    shown to the provider as [undefined: undefined]; a member that is
    missing shows as [undefined] next to the one that is there. *)
Theorem unchecked_turns_show_undefined (message : string) (msgs : list json) :
  (Forall (fun msg => memberless msg = true) msgs ->
   msgs <> [] ->
   assemble (Some (JString message)) (JArray msgs)
   = Returns ("Previous conversation:" ++ nl
                ++ join nl (map (fun _ => "undefined: undefined") msgs)
                ++ nl ++ nl ++ "User: " ++ message))
  /\ render_turn Number_toString (JObject []) = Returns "undefined: undefined"
  /\ (forall c, render_turn Number_toString (JObject [("content", JString c)])
                = Returns ("undefined: " ++ c))
  /\ (forall r, render_turn Number_toString (JObject [("role", JString r)])
                = Returns (r ++ ": undefined")).
Proof.
  split; [| repeat split].
  intros Hall Hne. unfold assemble. rewrite chat_prompt_of_array.
  assert (E : all_of (render_turn Number_toString) msgs
              = Returns (map (fun _ => "undefined: undefined") msgs)).
  { clear Hne. induction Hall as [| msg msgs Hmsg _ IH]; [reflexivity |].
    cbn [all_of map]. rewrite IH.
    destruct msg; try discriminate Hmsg; reflexivity. }
  rewrite E. cbn [and_then to_string ToString].
  destruct msgs; [contradiction |].
  f_equal. rewrite !append_associative. reflexivity.
Qed.

Lemma join_cons sep a b rest :
  join sep (a :: b :: rest) = a ++ sep ++ join sep (b :: rest).
Proof. reflexivity. Qed.

Lemma join_last sep xs x tail :
  join sep (xs ++ [x ++ tail]) = join sep (xs ++ [x]) ++ tail.
Proof.
  induction xs as [| y xs IH]; [reflexivity |].
  destruct xs as [| z xs].
  - cbn [app]. rewrite !join_cons. unfold join. cbn [String.concat].
    rewrite !append_associative. reflexivity.
  - cbn [app] in IH |- *. rewrite !join_cons, IH, !append_associative. reflexivity.
Qed.

(** X10: nothing in the prompt tells the history from the message: text
    put at the end of the last turn reads to the provider exactly as if it
    were the message.  The history whose last turn ends with an empty line
    and [User: x], sent with the message [m], and the history without that
    ending, sent with the message [x], an empty line and [User: m], give
    the same prompt. *)
Theorem chat_prompt_is_ambiguous (history : list (string * string)) role content x m :
  let tail := nl ++ nl ++ "User: " ++ x in
  assemble (Some (JString m)) (JArray (map turn (history ++ [(role, content ++ tail)])))
  = assemble (Some (JString (x ++ nl ++ nl ++ "User: " ++ m)))
      (JArray (map turn (history ++ [(role, content)])))
  /\ (role, content ++ tail) <> (role, content).
Proof.
  intros tail. split.
  - unfold assemble. rewrite !chat_prompt_of_array, !render_turns.
    cbn [and_then to_string ToString]. rewrite !map_app. cbn [map].
    unfold rendered at 2 4. cbn [fst snd].
    replace (role ++ ": " ++ content ++ tail) with ((role ++ ": " ++ content) ++ tail)
      by (rewrite !append_associative; reflexivity).
    rewrite join_last.
    destruct (map turn history ++ [turn (role, (content ++ tail)%string)])%list eqn:E1;
      [destruct history; discriminate E1 |].
    destruct (map turn history ++ [turn (role, content)])%list eqn:E2;
      [destruct history; discriminate E2 |].
    subst tail. f_equal. rewrite !append_associative. cbn [append]. reflexivity.
  - intros H. injection H as H.
    assert (L : String.length (content ++ tail) = String.length content) by (rewrite H; reflexivity).
    clear H. induction content as [| c content IH]; [discriminate L |].
    cbn [append String.length] in L. injection L as L. exact (IH L).
Qed.

End ChatErrors.

(** ** The other operations of the gateway *)

Section OtherOperations.
Variable Number_toString : string -> string.
Variable StringToNumber_sign : string -> option comparison.
Variable model : provider.

Let text_of := generateText Number_toString StringToNumber_sign model.
Let component := generateComponent Number_toString model.
Let schema := generateDatabaseSchema Number_toString model.
Let api := generateAPI Number_toString model.
Let java_app := generateJavaApp Number_toString model.

Lemma guarded_ends_as_guarded label failure prompt :
  only_type_errors prompt ->
  ends_as_guarded model failure prompt (guarded model label failure prompt).
Proof.
  unfold ends_as_guarded, guarded. intros Honly.
  destruct prompt as [p | e].
  - destruct (model p) as [text | m] eqn:Hp; cbn [result snd trace fst provider_calls].
    + exists p. repeat split. exact Hp.
    + right. split; [reflexivity |]. exists p, m. repeat split. exact Hp.
  - cbn [result snd trace fst provider_calls]. left.
    destruct e as [m | m | | m]; try contradiction. exists m. repeat split.
Qed.

Lemma array_join_only_type_errors sep xs :
  only_type_errors (array_join Number_toString sep xs).
Proof.
  unfold array_join. apply and_then_only_type_errors; [| intros; exact I].
  apply all_of_only_type_errors, Forall_forall. intros x _.
  destruct x; first [exact I | apply ToString_only_type_errors].
Qed.

Lemma join_of_only_type_errors name sep xs :
  only_type_errors (join_of Number_toString name sep xs).
Proof.
  destruct xs; try exact I. apply array_join_only_type_errors.
Qed.

Lemma endpoint_lines_only_type_errors endpoints :
  only_type_errors (endpoint_lines Number_toString endpoints).
Proof.
  destruct endpoints as [[| b | lit | s | eps | ps] |]; try exact I.
  cbn [endpoint_lines]. apply and_then_only_type_errors; [| intros; exact I].
  apply all_of_only_type_errors, Forall_forall. intros ep _. unfold render_endpoint.
  repeat (apply and_then_only_type_errors;
          [first [apply member_only_type_errors | apply to_string_only_type_errors]
          | intros ?]).
  exact I.
Qed.

Ltac assembles_with_type_errors :=
  repeat (apply and_then_only_type_errors;
          [first [ apply to_string_only_type_errors
                 | apply ToString_only_type_errors
                 | apply join_of_only_type_errors
                 | apply endpoint_lines_only_type_errors ]
          | intros ?]);
  exact I.

Ltac is_guarded :=
  rewrite bind_lift;
  match goal with
  | |- match ?prompt with _ => _ end = _ =>
      destruct prompt as [p | e]; [apply guarded_call | reflexivity]
  end.

Lemma component_guarded componentName description framework props :
  component componentName description framework props
  = guarded model "Component generation error:" "Failed to generate component"
      (component_prompt Number_toString componentName description framework props).
Proof. unfold component, generateComponent. is_guarded. Qed.

Lemma schema_guarded description collections :
  schema description collections
  = guarded model "Database schema generation error:" "Failed to generate database schema"
      (schema_prompt Number_toString description collections).
Proof. unfold schema, generateDatabaseSchema. is_guarded. Qed.

Lemma api_guarded endpoints authentication :
  api endpoints authentication
  = guarded model "API generation error:" "Failed to generate API"
      (api_prompt Number_toString endpoints authentication).
Proof. unfold api, generateAPI. is_guarded. Qed.

Lemma java_app_guarded appName description features springBoot :
  java_app appName description features springBoot
  = guarded model "Java app generation error:" "Failed to generate Java application"
      (java_app_prompt Number_toString appName description features springBoot).
Proof. unfold java_app, generateJavaApp. is_guarded. Qed.

(** X11: [generateComponent], [generateDatabaseSchema], [generateAPI] and
    [generateJavaApp] end in one of three ways, whatever their arguments:
    with the text of the provider; with the [TypeError] that an ill-typed
    argument raised while the prompt was assembled, which is not wrapped
    and comes before any call of the provider; or with their own fixed
    error, after one call of the provider that failed. *)
Theorem generators_fail_in_two_ways :
  (forall componentName description framework props,
      ends_as_guarded model "Failed to generate component"
        (component_prompt Number_toString componentName description framework props)
        (component componentName description framework props))
  /\ (forall description collections,
         ends_as_guarded model "Failed to generate database schema"
           (schema_prompt Number_toString description collections)
           (schema description collections))
  /\ (forall endpoints authentication,
         ends_as_guarded model "Failed to generate API"
           (api_prompt Number_toString endpoints authentication)
           (api endpoints authentication))
  /\ (forall appName description features springBoot,
         ends_as_guarded model "Failed to generate Java application"
           (java_app_prompt Number_toString appName description features springBoot)
           (java_app appName description features springBoot)).
Proof.
  repeat split; intros.
  - rewrite component_guarded. apply guarded_ends_as_guarded.
    unfold component_prompt. assembles_with_type_errors.
  - rewrite schema_guarded. apply guarded_ends_as_guarded.
    unfold schema_prompt. assembles_with_type_errors.
  - rewrite api_guarded. apply guarded_ends_as_guarded.
    unfold api_prompt. assembles_with_type_errors.
  - rewrite java_app_guarded. apply guarded_ends_as_guarded.
    unfold java_app_prompt. assembles_with_type_errors.
Qed.

(** X12: [generateText] assembles its prompt inside the [try], so
    everything it throws is [Error("Failed to generate AI response")], the
    [TypeError] of a context that cannot be converted included.  A context
    that is missing or falsy leaves the prompt as it is; a string that is
    not empty is put before it, an empty line and [User: ] between the
    two. *)
Theorem generateText_wraps_every_failure (prompt : string) (context : jsval) :
  match result (text_of prompt context) with
  | Returns _ => True
  | Throws e => e = Error "Failed to generate AI response"
  end
  /\ (truthy StringToNumber_sign (Some (default context (JString ""))) = false ->
      provider_calls (trace (text_of prompt context)) = [prompt])
  /\ (forall c, context = Some (JString c) -> c <> "" ->
      provider_calls (trace (text_of prompt context))
      = [c ++ nl ++ nl ++ "User: " ++ prompt])
  /\ (forall ps, context = Some (JObject ps) -> has_own ps "toString" = true ->
      result (text_of prompt context) = Throws (Error "Failed to generate AI response")
      /\ provider_calls (trace (text_of prompt context)) = []).
Proof.
  unfold text_of, generateText.
  split; [| split; [| split]].
  - destruct (truthy StringToNumber_sign (Some (default context (JString ""))));
      [destruct (ToString Number_toString (default context (JString ""))) as [c | e] |];
      rewrite bind_lift; cbn [and_then];
      unfold generateContent, try_catch, bind, emit, ret, throw;
      try destruct (model _); cbn; auto.
  - intros ->. rewrite bind_lift.
    unfold generateContent, try_catch, bind, emit, ret, throw.
    destruct (model prompt); reflexivity.
  - intros c -> Hc. cbn [default truthy].
    destruct (String.eqb_spec c "") as [E | _]; [contradiction |].
    cbn [negb ToString and_then]. rewrite bind_lift.
    unfold generateContent, try_catch, bind, emit, ret, throw.
    destruct (model _); reflexivity.
  - intros ps -> Hown. cbn [default truthy ToString]. rewrite Hown.
    split; reflexivity.
Qed.

Lemma render_endpoints eps :
  all_of (render_endpoint Number_toString) (map api_endpoint eps)
  = Returns (map endpoint_line eps).
Proof.
  induction eps as [| [[m p] d] eps IH]; [reflexivity |].
  cbn [map all_of]. rewrite IH. reflexivity.
Qed.

(** X13: [generateAPI] has no default for [endpoints]: called without
    them, or with a value that is no array, it throws a [TypeError] before
    the provider is called.  For an array of endpoints with string members
    the prompt lists them in order, one [method path - description] per
    line, and says [true] for the authentication that was left out. *)
Theorem generateAPI_needs_endpoints :
  (forall endpoints authentication,
      is_array endpoints = false ->
      provider_calls (trace (api endpoints authentication)) = []
      /\ exists m, result (api endpoints authentication) = Throws (TypeError m))
  /\ (forall eps,
         provider_calls (trace (api (Some (JArray (map api_endpoint eps))) None))
         = [generateAPI_prompt (join nl (map endpoint_line eps)) "true"]).
Proof.
  split.
  - intros endpoints authentication H. rewrite api_guarded.
    unfold api_prompt, endpoint_lines.
    destruct endpoints as [[| b | lit | s | eps | ps] |]; try discriminate H;
      cbn [and_then guarded trace fst result snd provider_calls];
      (split; [reflexivity | eexists; reflexivity]).
  - intros eps. rewrite api_guarded. unfold api_prompt, endpoint_lines.
    rewrite render_endpoints. cbn [and_then default ToString guarded].
    destruct (model _); reflexivity.
Qed.

End OtherOperations.

(** ** The chat component *)

Section ChatComponent.
Variable Number_toString : string -> string.
Variable StringToNumber_sign : string -> option comparison.
Variable model : provider.

(** Calls that the guard holds back change nothing. *)
Lemma presses_held fetches st :
  (blank (input st) || isLoading st)%bool = true -> presses fetches st = (st, []).
Proof.
  intros H. induction fetches as [| fetch later IH]; [reflexivity |].
  cbn [presses]. unfold sendMessage. rewrite H, IH. reflexivity.
Qed.

(** After a call the guard holds back the next one: either it held back
    this one and the state is the same, or the input has been cleared. *)
Lemma sendMessage_then_held fetch st :
  let after := fst (sendMessage fetch st) in
  (blank (input after) || isLoading after)%bool = true.
Proof.
  unfold sendMessage.
  destruct (blank (input st) || isLoading st)%bool eqn:H; [exact H | reflexivity].
Qed.

(** X14: an input is sent once at most.  However often [sendMessage] is
    called again after a first call, with nothing typed in between, only the
    first call can make a request, and the state stays what the first call
    left; and calls made while a request is awaited make none. *)
Theorem sendMessage_sends_an_input_once fetch later st :
  presses (fetch :: later) st = sendMessage fetch st
  /\ (List.length (snd (presses (fetch :: later) st)) <= 1)%nat
  /\ presses (fetch :: later) (pending st) = (pending st, []).
Proof.
  assert (E : presses (fetch :: later) st = sendMessage fetch st).
  { cbn [presses].
    pose proof (sendMessage_then_held fetch st) as H. cbv zeta in H.
    destruct (sendMessage fetch st) as [st' first]. cbn [fst] in H.
    rewrite (presses_held later st' H), app_nil_r. reflexivity. }
  split; [exact E |]. split.
  - rewrite E. unfold sendMessage.
    destruct (blank (input st) || isLoading st)%bool; cbn [snd List.length]; lia.
  - apply presses_held. cbn [pending isLoading]. apply orb_true_r.
Qed.

Lemma slice_last_splits {A} n (xs : list A) :
  exists older, xs = (older ++ slice_last n xs)%list
                /\ List.length (slice_last n xs) = Nat.min n (List.length xs).
Proof.
  unfold slice_last. exists (firstn (List.length xs - n) xs). split.
  - symmetry. apply firstn_skipn.
  - rewrite length_skipn. lia.
Qed.

(** X15: the request carries the input as [message], the selected mode, and
    as history the last ten messages that were shown before the call, in
    their order (all of them when there are fewer); the message being sent
    is not part of that history. *)
Theorem request_carries_the_last_ten (st : client) :
  let history := slice_last 10 (messages st) in
  method (chat_request st) = "POST"
  /\ get (members (chat_request st)) "message" = Some (JString (input st))
  /\ get (members (chat_request st)) "mode" = Some (JString (selectedMode st))
  /\ get (members (chat_request st)) "conversationHistory"
     = Some (JArray (map entry_json history))
  /\ List.length history = Nat.min 10 (List.length (messages st))
  /\ exists older, messages st = (older ++ history)%list.
Proof.
  intros history. repeat split.
  - destruct (slice_last_splits 10 (messages st)) as (older & _ & H). exact H.
  - destruct (slice_last_splits 10 (messages st)) as (older & H & _).
    exists older. exact H.
Qed.

(** X16: a call of [sendMessage] that is not held back adds two messages
    after the ones that were there, which it leaves as they were: the input
    under the role [user], then one message of the assistant.  That message
    is the apology when [fetch] or [response.json()] rejects, when the
    status is not 2xx, and when the status is 2xx and the body is [null];
    for a 2xx body that is an object its content is the [response] member
    of the body, undefined when there is none, and for another 2xx body it
    is undefined.  The input is cleared, the mode kept, and nothing is
    pending. *)
Theorem sendMessage_adds_two_messages (fetch : request -> fetched) (st : client) :
  blank (input st) = false ->
  isLoading st = false ->
  let after := fst (sendMessage fetch st) in
  let user := {| role := "user"; content := Some (JString (input st)) |} in
  let assistant c := {| role := "assistant"; content := c |} in
  let answered reply := messages after = (messages st ++ [user; reply])%list in
  input after = ""
  /\ isLoading after = false
  /\ selectedMode after = selectedMode st
  /\ (exists reply, answered reply /\ role reply = "assistant")
  /\ (fetch (chat_request st) = Rejected -> answered apology)
  /\ (forall status data,
        fetch (chat_request st) = Answered status data ->
        ((status < 200)%nat \/ (299 < status)%nat -> answered apology)
        /\ ((200 <= status <= 299)%nat ->
            (data = JNull -> answered apology)
            /\ (forall ps, data = JObject ps -> answered (assistant (get ps "response")))
            /\ (memberless data = true -> answered (assistant None)))).
Proof.
  intros Hblank Hloading after user assistant answered.
  subst after answered. unfold sendMessage.
  rewrite Hblank, Hloading. cbn [orb fst messages input isLoading selectedMode pending].
  rewrite <- app_assoc. cbn [app]. fold user.
  split; [reflexivity |]. split; [reflexivity |]. split; [reflexivity |].
  split; [| split].
  - exists (reply_of (fetch (chat_request st))). split; [reflexivity |].
    unfold reply_of. destruct (fetch (chat_request st)) as [| status data]; [reflexivity |].
    destruct (ok status); [| reflexivity].
    destruct (member data "response"); reflexivity.
  - intros ->. reflexivity.
  - intros status data ->. cbn [reply_of]. unfold ok. split.
    + intros Hout.
      assert (E : ((200 <=? status) && (status <=? 299))%nat = false).
      { apply andb_false_iff. destruct Hout as [H | H];
          [left; apply Nat.leb_gt; exact H | right; apply Nat.leb_gt; exact H]. }
      rewrite E. reflexivity.
    + intros [H1 H2].
      assert (E : ((200 <=? status) && (status <=? 299))%nat = true).
      { apply andb_true_iff. split; apply Nat.leb_le; assumption. }
      rewrite E. split; [| split].
      * intros ->. reflexivity.
      * intros ps ->. reflexivity.
      * intros Hdata. destruct data; try discriminate Hdata; reflexivity.
Qed.

Lemma blank_is_not_empty s : blank s = false -> s <> "".
Proof. intros H ->. discriminate H. Qed.

Lemma render_entries history :
  forallb textual history = true ->
  all_of (render_turn Number_toString) (map entry_json history)
  = Returns (map entry_line history).
Proof.
  induction history as [| [r [[| | | c | |] |]] history IH]; cbn [forallb textual content];
    try discriminate; [reflexivity |].
  intros H. cbn [map all_of]. rewrite (IH H). reflexivity.
Qed.

Lemma forallb_slice_last {A} (f : A -> bool) n xs :
  forallb f xs = true -> forallb f (slice_last n xs) = true.
Proof.
  intros H. destruct (slice_last_splits n xs) as (older & E & _).
  rewrite E in H. rewrite forallb_app in H. apply andb_prop in H. apply H.
Qed.

(** X17: the component against [/api/gemini/chat].  When every message
    shown has a string as content, a request of [sendMessage] is never
    answered 400 or 405: the prompt is assembled and the provider called
    once.  The text of the provider becomes the message of the assistant;
    a failure of the provider becomes the apology, its message nowhere in
    the state; and the contents are strings again afterwards. *)
Theorem component_meets_endpoint now (st : client) :
  forallb textual (messages st) = true ->
  blank (input st) = false ->
  isLoading st = false ->
  let served := chat_handler Number_toString StringToNumber_sign model now (chat_request st) in
  let after := fst (sendMessage
                      (endpoint (chat_handler Number_toString StringToNumber_sign model now))
                      st) in
  let user := {| role := "user"; content := Some (JString (input st)) |} in
  exists p,
    provider_calls (trace served) = [p]
    /\ (status_of served = Some 200 \/ status_of served = Some 500)
    /\ (forall text, model p = Text text ->
          messages after
          = (messages st
               ++ [user; {| role := "assistant"; content := Some (JString text) |}])%list)
    /\ (forall m, model p = Fails m ->
          messages after = (messages st ++ [user; apology])%list)
    /\ forallb textual (messages after) = true.
Proof.
  intros Htext Hblank Hloading served after user.
  assert (Hm : method (chat_request st) = "POST") by reflexivity.
  assert (Ht : truthy StringToNumber_sign (get (members (chat_request st)) "message") = true).
  { change (negb (input st =? "") = true).
    destruct (String.eqb_spec (input st) "") as [E | _]; [| reflexivity].
    exfalso. exact (blank_is_not_empty _ Hblank E). }
  assert (Hprompt : exists p,
             prompt_of Number_toString StringToNumber_sign
               (default (get (members (chat_request st)) "mode") (JString "chat"))
               (get (members (chat_request st)) "message")
               (Some (default (get (members (chat_request st)) "conversationHistory")
                        (JArray [])))
             = Returns p).
  { change (get (members (chat_request st)) "mode") with (Some (JString (selectedMode st))).
    change (get (members (chat_request st)) "message") with (Some (JString (input st))).
    change (get (members (chat_request st)) "conversationHistory")
      with (Some (JArray (map entry_json (slice_last 10 (messages st))))).
    cbn [default]. unfold prompt_of.
    repeat match goal with
           | |- context [if ?b then _ else _] => destruct b
           end;
      try (eexists; reflexivity).
    cbn [default]. rewrite chat_prompt_of_array.
    rewrite (render_entries _ (forallb_slice_last textual 10 _ Htext)).
    eexists; reflexivity. }
  destruct Hprompt as [p Hp]. exists p.
  subst after. unfold sendMessage, endpoint.
  rewrite Hblank, Hloading. cbn [orb fst messages input isLoading selectedMode pending].
  fold served. subst served.
  rewrite (handle_chat_cases _ _ _ now (chat_request st) Hm eq_refl Ht), Hp.
  destruct (model p) as [text | m].
  - split; [reflexivity |]. split; [left; reflexivity |].
    cbn [result snd status payload reply_of ok Nat.leb andb member].
    split; [| split].
    + intros text' H. injection H as <-. rewrite <- app_assoc. reflexivity.
    + intros m H. discriminate H.
    + rewrite !forallb_app, Htext. reflexivity.
  - split; [reflexivity |]. split; [right; reflexivity |].
    cbn [result snd status payload reply_of].
    split; [| split].
    + intros text H. discriminate H.
    + intros m' _. rewrite <- app_assoc. reflexivity.
    + rewrite !forallb_app, Htext. reflexivity.
Qed.

End ChatComponent.

(** ** Defaults of the project builder *)

Section BuilderDefaults.
Variable Number_toString : string -> string.
Variable model : provider.

Let build := project_builder_handler Number_toString model.

(** X18: the defaults of [generateProjectPlan] stand for a missing member
    only.  A body without [projectType], [requirements] or [buildContext]
    is answered as the body that spells out ['web'], [[]] or [{}]; a member
    that is [null] is not replaced: the prompt then says [null] for the
    project type and for the build context. *)
Theorem defaults_replace_missing_members_only now req :
  (get (members req) "projectType" = None ->
   build now (with_member req "projectType" (JString "web")) = build now req)
  /\ (get (members req) "requirements" = None ->
      build now (with_member req "requirements" (JArray [])) = build now req)
  /\ (get (members req) "buildContext" = None ->
      build now (with_member req "buildContext" (JObject [])) = build now req)
  /\ (forall prompt : string,
         provider_calls
           (trace (build now (post [ ("prompt", JString prompt); ("projectType", JNull)
                                   ; ("buildContext", JNull) ])))
         = [generateProjectPlan_prompt "null" "null" "" prompt]).
Proof.
  split; [| split; [| split]].
  - unfold build, project_builder_handler, members, with_member. cbn [method body].
    destruct (body req) as [[| b | lit | s | xs | ps] |]; try reflexivity.
    intros H. cbn [destructure]. rewrite !bind_lift.
    rewrite get_with_member_same, !get_with_member_other by discriminate.
    unfold generateProjectPlan, plan_prompt. rewrite H. reflexivity.
  - unfold build, project_builder_handler, members, with_member. cbn [method body].
    destruct (body req) as [[| b | lit | s | xs | ps] |]; try reflexivity.
    intros H. cbn [destructure]. rewrite !bind_lift.
    rewrite get_with_member_same, !get_with_member_other by discriminate.
    unfold generateProjectPlan, plan_prompt. rewrite H. reflexivity.
  - unfold build, project_builder_handler, members, with_member. cbn [method body].
    destruct (body req) as [[| b | lit | s | xs | ps] |]; try reflexivity.
    intros H. cbn [destructure]. rewrite !bind_lift.
    rewrite get_with_member_same, !get_with_member_other by discriminate.
    unfold generateProjectPlan, plan_prompt. rewrite H. reflexivity.
  - intros prompt. unfold build.
    rewrite (builder_traffic Number_toString model now
               (post [ ("prompt", JString prompt); ("projectType", JNull)
                     ; ("buildContext", JNull) ])).
    reflexivity.
Qed.

End BuilderDefaults.


(** * Runs of the further properties *)

(** A plan between two sentences is recovered. *)
Example plan_inside_prose_is_recovered_witness :
  let text := "Here is your plan: " ++ braced (dq ++ "ready" ++ dq ++ ": true")
                ++ " Enjoy!" in
  sent (project_builder_handler literal_text (fun _ => Text text)
          "2024-01-01T00:00:00.000Z" (post [("prompt", JString "a shop")]))
  = Some {| status := 200;
            payload := [ ("success", JBool true)
                       ; ("projectPlan", JObject [("ready", JBool true)])
                       ; ("timestamp", JString "2024-01-01T00:00:00.000Z") ] |}.
Proof.
  intros text.
  exact (plan_inside_prose_is_recovered literal_text (fun _ => Text text)
           "2024-01-01T00:00:00.000Z" (post [("prompt", JString "a shop")])
           (generateProjectPlan_prompt "web" "{}" "" "a shop")
           "Here is your plan: " (dq ++ "ready" ++ dq ++ ": true") " Enjoy!"
           (JObject [("ready", JBool true)])
           eq_refl eq_refl eq_refl eq_refl eq_refl eq_refl eq_refl).
Defined.

(** The same plan followed by a remark in braces is lost. *)
Example brace_after_the_plan_loses_it_witness :
  let text := "Here is your plan: " ++ braced (dq ++ "ready" ++ dq ++ ": true")
                ++ " (see {notes})" in
  JSON_parse (braced (dq ++ "ready" ++ dq ++ ": true")) = Some (JObject [("ready", JBool true)])
  /\ sent (project_builder_handler literal_text (fun _ => Text text)
             "2024-01-01T00:00:00.000Z" (post [("prompt", JString "a shop")]))
     = Some {| status := 500;
               payload := [ ("error", JString "Failed to generate project plan")
                          ; ("details", JString "Failed to generate project plan") ] |}.
Proof.
  intros text. split; [reflexivity |].
  exact (brace_after_the_plan_loses_it literal_text (fun _ => Text text)
           "2024-01-01T00:00:00.000Z" (post [("prompt", JString "a shop")])
           (generateProjectPlan_prompt "web" "{}" "" "a shop")
           "Here is your plan: " (dq ++ "ready" ++ dq ++ ": true") " (see {notes})"
           (JObject [("ready", JBool true)])
           eq_refl eq_refl eq_refl eq_refl eq_refl eq_refl eq_refl).
Defined.

(** A message that cannot be converted to a string: the details are the
    message of the engine, and the provider is not called.  A body that is
    [null]: the details are the message of the destructuring. *)
Example chat_error_details_witness :
  let run := chat_handler literal_text no_sign (fun _ => Text "hi")
               "2024-01-01T00:00:00.000Z" in
  let r := run (post [ ("message", JObject [("toString", JString "x")])
                     ; ("mode", JString "code") ]) in
  let r' := run {| method := "POST"; body := Some JNull |} in
  (status_of r = Some 500
   /\ field r "details" = Some (JString "Cannot convert object to primitive value")
   /\ provider_calls (trace r) = [])
  /\ (status_of r' = Some 500
      /\ field r' "details"
         = Some (JString "Cannot destructure property 'message' of 'req.body' as it is null.")
      /\ provider_calls (trace r') = []).
Proof.
  intros run r r'. split.
  - assert (H500 : status_of r = Some 500) by reflexivity.
    split; [exact H500 |].
    destruct (chat_error_details literal_text no_sign (fun _ => Text "hi")
                "2024-01-01T00:00:00.000Z" _ H500)
      as [_ [(_ & _ & p & m & _ & Hfail)
            | [(_ & m & Hthrow & Hdetails & Hcalls) | (Hb & _)]]].
    + discriminate Hfail.
    + injection Hthrow as <-. split; [exact Hdetails | exact Hcalls].
    + discriminate Hb.
  - assert (H500 : status_of r' = Some 500) by reflexivity.
    split; [exact H500 |].
    destruct (chat_error_details literal_text no_sign (fun _ => Text "hi")
                "2024-01-01T00:00:00.000Z" _ H500)
      as [_ [(Hb & _) | [(Hb & _) | (_ & Hdetails & _ & Hcalls)]]].
    + discriminate Hb.
    + discriminate Hb.
    + split; [exact Hdetails | exact Hcalls].
Defined.

(** A history that is [null] is answered 500. *)
Example history_that_is_no_array_witness :
  let req := post [("message", JString "hello"); ("conversationHistory", JNull)] in
  let r := chat_handler literal_text no_sign (fun _ => Text "hi")
             "2024-01-01T00:00:00.000Z" req in
  status_of r = Some 500
  /\ field r "details" = Some (JString "Cannot read properties of null (reading 'length')")
  /\ provider_calls (trace r) = [].
Proof.
  intros req r.
  destruct (history_that_is_no_array literal_text no_sign (fun _ => Text "hi")
              "2024-01-01T00:00:00.000Z" req eq_refl eq_refl eq_refl)
    as [Hnull _].
  destruct (Hnull eq_refl) as [Hsent Hcalls].
  unfold status_of, field. subst r. rewrite Hsent.
  split; [reflexivity |]. split; [reflexivity | exact Hcalls].
Defined.

(** A first message from the mounted component, answered 200 with the
    response [hi]; and the same message when the endpoint is out of
    reach. *)
Example sendMessage_adds_two_messages_witness :
  let st := {| messages := messages mounted; input := "hello";
               isLoading := false; selectedMode := "chat" |} in
  let user := {| role := "user"; content := Some (JString "hello") |} in
  let answer := fun _ : request => Answered 200 (JObject [("response", JString "hi")]) in
  messages (fst (sendMessage answer st))
  = (messages mounted ++ [user; {| role := "assistant"; content := Some (JString "hi") |}])%list
  /\ messages (fst (sendMessage (fun _ => Rejected) st))
     = (messages mounted ++ [user; apology])%list.
Proof.
  intros st user answer. split.
  - destruct (sendMessage_adds_two_messages answer st eq_refl eq_refl)
      as (_ & _ & _ & _ & _ & Hanswered).
    destruct (Hanswered 200 _ eq_refl) as [_ Hok].
    assert (Hstatus : 200 <= 200 <= 299) by (split; [apply le_n | apply Nat.leb_le; reflexivity]).
    destruct (Hok Hstatus) as (_ & Hobject & _).
    exact (Hobject _ eq_refl).
  - destruct (sendMessage_adds_two_messages (fun _ => Rejected) st eq_refl eq_refl)
      as (_ & _ & _ & _ & Hrejected & _).
    exact (Hrejected eq_refl).
Defined.

(** A first message from the mounted component, answered by the endpoint
    with a provider that repeats the prompt. *)
Example component_meets_endpoint_witness :
  let st := {| messages := messages mounted; input := "hello";
               isLoading := false; selectedMode := "analyze" |} in
  let after := fst (sendMessage
                      (endpoint (chat_handler literal_text no_sign (fun p => Text p)
                                   "2024-01-01T00:00:00.000Z"))
                      st) in
  messages after
  = (messages st
       ++ [ {| role := "user"; content := Some (JString "hello") |}
          ; {| role := "assistant";
               content := Some (JString (analyzeCode_prompt "hello" "javascript")) |} ])%list.
Proof.
  intros st after.
  destruct (component_meets_endpoint literal_text no_sign (fun p => Text p)
              "2024-01-01T00:00:00.000Z" st eq_refl eq_refl eq_refl)
    as (p & Hcalls & _ & Htext & _).
  injection Hcalls as <-.
  exact (Htext _ eq_refl).
Defined.
